(** * Verification model of [python/webscraping/scrape_domain_names.py]

    A shallow embedding of the crawl script: proxy pool, [Fetcher] sessions
    with their cookie jars, the Anti-Captcha client, the page queries and the
    crawl engine with its driver.  The Python code runs in a state and
    exception monad; the outside world (HTTP peers, the HTML and JSON
    parsers, the regular expression engine, the random generator, the
    proxies file and the process environment) is a record of functions the
    program is run against. *)

From Stdlib Require Import ZArith Ascii String DecimalString.
From stdpp Require Import base option list gmap strings.

Local Open Scope Z_scope.
Set Warnings "-register-all,-clear-no-such-hyp".
Set Default Proof Using "Type".

(** ** Python string primitives (ASCII strings) *)

Module Py.

(** [sub in s] on strings. *)
Fixpoint contains (sub s : string) : bool :=
  if String.prefix sub s then true
  else match s with
       | EmptyString => false
       | String _ s' => contains sub s'
       end.

Definition lower_char (c : ascii) : ascii :=
  let n := nat_of_ascii c in
  if ((65 <=? n)%nat && (n <=? 90)%nat)%bool then ascii_of_nat (n + 32) else c.

(** [s.lower()] *)
Fixpoint lower (s : string) : string :=
  match s with
  | EmptyString => EmptyString
  | String c s' => String (lower_char c) (lower s')
  end.

(** Characters removed by [str.strip()] without argument. *)
Definition is_space (c : ascii) : bool :=
  let n := nat_of_ascii c in
  (((9 <=? n)%nat && (n <=? 13)%nat) || ((28 <=? n)%nat && (n <=? 32)%nat))%bool.

Fixpoint lstrip_by (p : ascii → bool) (s : string) : string :=
  match s with
  | EmptyString => EmptyString
  | String c s' => if p c then lstrip_by p s' else s
  end.

Definition strip_by (p : ascii → bool) (s : string) : string :=
  String.rev (lstrip_by p (String.rev (lstrip_by p s))).

(** [s.strip()] *)
Definition strip : string → string := strip_by is_space.

(** [s.strip('\n')] *)
Definition strip_newline : string → string :=
  strip_by (λ c, Ascii.eqb c "010"%char).

(** [re.sub(r'[,\.]', '', x)], the [clean] lambda of [has_next_page]. *)
Fixpoint clean (s : string) : string :=
  match s with
  | EmptyString => EmptyString
  | String c s' =>
      if (Ascii.eqb c ","%char || Ascii.eqb c "."%char)%bool then clean s'
      else String c (clean s')
  end.

(** The digits of an [int] literal: decimal digits, single underscores
    allowed between two digits. *)
Inductive lit_state := LitStart | LitDigit | LitUnderscore.

Fixpoint int_digits (st : lit_state) (acc : Z) (s : string) : option Z :=
  match s with
  | EmptyString => match st with LitDigit => Some acc | _ => None end
  | String c s' =>
      match Ascii.is_nat c with
      | Some d => int_digits LitDigit (10 * acc + Z.of_nat d) s'
      | None =>
          if Ascii.eqb c "_"%char then
            match st with
            | LitDigit => int_digits LitUnderscore acc s'
            | _ => None
            end
          else None
      end
  end.

(** [int(s)] for a string argument; [None] stands for [ValueError]. *)
Definition int (s : string) : option Z :=
  match strip s with
  | String "-" s' => Z.opp <$> int_digits LitStart 0 s'
  | String "+" s' => int_digits LitStart 0 s'
  | s' => int_digits LitStart 0 s'
  end.

(** [str(n)] for an [int]. *)
Definition str (n : Z) : string := NilZero.string_of_int (Z.to_int n).

(** ['/'.join(path.split('/')[:-1])]: the path up to its last slash. *)
Definition dirname (path : string) : string :=
  match lstrip_by (λ c, negb (Ascii.eqb c "/"%char)) (String.rev path) with
  | EmptyString => EmptyString
  | String _ r => String.rev r
  end.

End Py.

(** ** Values exchanged with the outside world *)

(** JSON documents as [json.loads] returns them. *)
Inductive json :=
  | JNull
  | JBool (b : bool)
  | JInt (n : Z)
  | JDec (mantissa exponent : Z)   (* mantissa * 10^exponent, a float *)
  | JStr (s : string)
  | JList (items : list json)
  | JObj (fields : list (string * json)).

(** Python truthiness of such a value ([if not task_id], [while not solution]). *)
Definition truthy (v : json) : bool :=
  match v with
  | JNull => false
  | JBool b => b
  | JInt n => negb (n =? 0)
  | JDec m _ => negb (m =? 0)
  | JStr s => match s with EmptyString => false | _ => true end
  | JList l => match l with [] => false | _ => true end
  | JObj l => match l with [] => false | _ => true end
  end.

Fixpoint assoc {A} (k : string) (l : list (string * A)) : option A :=
  match l with
  | [] => None
  | (k', v) :: l' => if String.eqb k k' then Some v else assoc k l'
  end.

(** Exceptions the script can meet. *)
Inductive exn :=
  | KeyError (key : string)
  | AttributeError (what : string)
  | TypeError (what : string)
  | ValueError (what : string)
  | JSONDecodeError
  | RequestException (what : string)
  | OSError (what : string)
  | GenericException (what : string).

(** Body of an outgoing request: [data=] form fields or [json=] document. *)
Inductive Body :=
  | NoBody
  | FormData (fields : list (string * json))
  | JsonBody (doc : json).

(** Keyword arguments of one call of [requests.get] / [requests.post]. *)
Record Request := mkRequest {
  req_method : string;
  req_url : string;
  req_body : Body;
  req_headers : gmap string string;
  req_cookies : gmap string string;
  req_proxies : option string;
  req_timeout : option Z;
}.

(** The parts of [requests.Response] the script reads. *)
Record Response := mkResponse {
  status_code : Z;
  text : string;
  res_cookies : gmap string string;   (* res.cookies.get_dict() *)
  res_url : string;
}.

(** Parsed HTML, as BeautifulSoup exposes it: text nodes and tags with
    attributes and children. *)
Inductive node :=
  | NText (s : string)
  | NTag (name : string) (attrs : list (string * string)) (children : list node).

(** The outside world. [network n r] is the outcome of request [r] when [n]
    requests were issued before it: an exception or a response. *)
Record Env := mkEnv {
  network : nat → Request → exn + Response;
  html_parser : string → list node;           (* BeautifulSoup(html, 'html.parser') *)
  json_loads : string → option json;          (* res.json(), None: not JSON *)
  recaptcha_search : string → option (string * string);
                                              (* re.search(RECAPTCHA_REGEX, html) groups *)
  random_source : nat → nat;                  (* raw value of the n-th draw *)
  proxies_file : option (list string);        (* fin.readlines(), None: unreadable *)
  environ : gmap string string;               (* os.environ *)
}.

(** ** Program state *)

Inductive Event :=
  | EvHttp (r : Request)
  | EvSleep (seconds : Z)
  | EvChoice (n index : nat)
  | EvReadFile (path : string)
  | EvMakeDirs (path : string).

(** A [Fetcher] object; [cookies] is a reference to a dict on the heap. *)
Record Fetcher := mkFetcher {
  proxy : option string;
  cookies : nat;
  timeout : Z;
}.

Record State := mkState {
  heap : list (gmap string string);   (* the dict objects used as cookie jars *)
  log : list Event;                   (* effects on the outside world, oldest first *)
  good_proxies : list string;
  bad_proxies : list string;
  domains : gset string;
  results_file : list string;         (* lines appended to RESULTS_FILE *)
  dirs : gset string;                 (* directories known to exist *)
  sessions : list Fetcher;            (* ghost: every Fetcher constructed so far *)
}.

Definition initial_state : State :=
  {| heap := []; log := []; good_proxies := []; bad_proxies := [];
     domains := ∅; results_file := []; dirs := ∅; sessions := [] |}.

Definition set_heap (h : list (gmap string string)) (st : State) : State :=
  {| heap := h; log := log st; good_proxies := good_proxies st;
     bad_proxies := bad_proxies st; domains := domains st;
     results_file := results_file st; dirs := dirs st; sessions := sessions st |}.
Definition set_log (l : list Event) (st : State) : State :=
  {| heap := heap st; log := l; good_proxies := good_proxies st;
     bad_proxies := bad_proxies st; domains := domains st;
     results_file := results_file st; dirs := dirs st; sessions := sessions st |}.
Definition set_good_proxies (l : list string) (st : State) : State :=
  {| heap := heap st; log := log st; good_proxies := l;
     bad_proxies := bad_proxies st; domains := domains st;
     results_file := results_file st; dirs := dirs st; sessions := sessions st |}.
Definition set_bad_proxies (l : list string) (st : State) : State :=
  {| heap := heap st; log := log st; good_proxies := good_proxies st;
     bad_proxies := l; domains := domains st;
     results_file := results_file st; dirs := dirs st; sessions := sessions st |}.
Definition set_domains (d : gset string) (st : State) : State :=
  {| heap := heap st; log := log st; good_proxies := good_proxies st;
     bad_proxies := bad_proxies st; domains := d;
     results_file := results_file st; dirs := dirs st; sessions := sessions st |}.
Definition set_results_file (l : list string) (st : State) : State :=
  {| heap := heap st; log := log st; good_proxies := good_proxies st;
     bad_proxies := bad_proxies st; domains := domains st;
     results_file := l; dirs := dirs st; sessions := sessions st |}.
Definition set_dirs (d : gset string) (st : State) : State :=
  {| heap := heap st; log := log st; good_proxies := good_proxies st;
     bad_proxies := bad_proxies st; domains := domains st;
     results_file := results_file st; dirs := d; sessions := sessions st |}.
Definition set_sessions (l : list Fetcher) (st : State) : State :=
  {| heap := heap st; log := log st; good_proxies := good_proxies st;
     bad_proxies := bad_proxies st; domains := domains st;
     results_file := results_file st; dirs := dirs st; sessions := l |}.

(** ** The monad: state, exceptions, and fuel for the unbounded loop *)

Inductive outcome (A : Type) :=
  | Returns (a : A)
  | Raises (e : exn)
  | OutOfFuel.
Arguments Returns {A} a.
Arguments Raises {A} e.
Arguments OutOfFuel {A}.

Definition M (A : Type) : Type := State → outcome A * State.

Definition ret {A} (a : A) : M A := λ st, (Returns a, st).
Definition raise {A} (e : exn) : M A := λ st, (Raises e, st).
Definition out_of_fuel {A} : M A := λ st, (OutOfFuel, st).
Definition bind {A B} (m : M A) (k : A → M B) : M B :=
  λ st, match m st with
        | (Returns a, st') => k a st'
        | (Raises e, st') => (Raises e, st')
        | (OutOfFuel, st') => (OutOfFuel, st')
        end.
(** [try: m  except Exception as e: h e] *)
Definition try_except {A} (m : M A) (h : exn → M A) : M A :=
  λ st, match m st with
        | (Raises e, st') => h e st'
        | r => r
        end.
Definition get_state : M State := λ st, (Returns st, st).
Definition modify (f : State → State) : M unit := λ st, (Returns (), f st).
Definition emit (e : Event) : M unit := modify (λ st, set_log (log st ++ [e]) st).

#[global] Instance M_ret : MRet M := @ret.
#[global] Instance M_bind : MBind M := λ A B k m, bind m k.

(** ** BeautifulSoup queries *)

Module Soup.

(** A tag as a query returns it: the node and the siblings that follow it. *)
Definition tag : Type := node * list node.

(** Does attribute [k] match the string [v]?  [class] is multi-valued: one
    of its whitespace-separated tokens may match, or the whole value. *)
Definition attr_matches (k v : string) (attrs : list (string * string)) : bool :=
  match assoc k attrs with
  | None => false
  | Some val =>
      if String.eqb k "class"
      then (bool_decide (v ∈ String.words val) || String.eqb val v)%bool
      else String.eqb val v
  end.

(** A filter: optional tag name, and attribute constraints. *)
Definition matches (name : option string) (constraints : list (string * string))
    (n : string) (attrs : list (string * string)) : bool :=
  (match name with None => true | Some x => String.eqb x n end
   && forallb (λ kv, attr_matches kv.1 kv.2 attrs) constraints)%bool.

(** First match in document order among [n] and its descendants. *)
Fixpoint find_node (p : string → list (string * string) → bool)
    (n : node) (sibs : list node) : option tag :=
  match n with
  | NText _ => None
  | NTag name attrs children =>
      if p name attrs then Some (n, sibs)
      else (fix go (l : list node) : option tag :=
              match l with
              | [] => None
              | c :: l' =>
                  match find_node p c l' with
                  | Some r => Some r
                  | None => go l'
                  end
              end) children
  end.

Fixpoint find_forest (p : string → list (string * string) → bool)
    (l : list node) : option tag :=
  match l with
  | [] => None
  | c :: l' =>
      match find_node p c l' with
      | Some r => Some r
      | None => find_forest p l'
      end
  end.

(** [soup.find(name, attrs=...)] on a whole document. *)
Definition find (name : option string) (constraints : list (string * string))
    (doc : list node) : option tag :=
  find_forest (matches name constraints) doc.

(** All matches in document order among [n] and its descendants. *)
Fixpoint find_all_node (p : string → list (string * string) → bool)
    (n : node) : list node :=
  match n with
  | NText _ => []
  | NTag name attrs children =>
      (if p name attrs then [n] else [])
      ++ (fix go (l : list node) : list node :=
            match l with
            | [] => []
            | c :: l' => find_all_node p c ++ go l'
            end) children
  end.

Definition children_of (n : node) : list node :=
  match n with NText _ => [] | NTag _ _ ch => ch end.

(** [tag.find_all(name, attrs=...)]: matches among the descendants of a tag. *)
Definition find_all (name : option string) (constraints : list (string * string))
    (t : tag) : list node :=
  concat (map (find_all_node (matches name constraints)) (children_of t.1)).

(** [tag.find_next_sibling(name)] *)
Fixpoint next_sibling_named (name : string) (sibs : list node) : option tag :=
  match sibs with
  | [] => None
  | NTag n attrs ch :: rest =>
      if String.eqb n name then Some (NTag n attrs ch, rest)
      else next_sibling_named name rest
  | NText _ :: rest => next_sibling_named name rest
  end.

Definition find_next_sibling (name : string) (t : tag) : option tag :=
  next_sibling_named name t.2.

(** [tag.text]: all the text below the node. *)
Fixpoint text_of (n : node) : string :=
  match n with
  | NText s => s
  | NTag _ _ children =>
      (fix go (l : list node) : string :=
         match l with
         | [] => EmptyString
         | c :: l' => text_of c +:+ go l'
         end) children
  end.

(** [tag.get(k)]: the attribute or [None]. *)
Definition get (k : string) (t : tag) : option string :=
  match t.1 with
  | NText _ => None
  | NTag _ attrs _ => assoc k attrs
  end.

End Soup.

(** ** Script constants *)

Definition listing_url (page : Z) : string :=
  "https://myip.ms/browse/sites/" +:+ Py.str page +:+
  "/ipID/23.227.38.32/ipIDii/23.227.38.32".
Definition IP_API_URL : string := "https://public-apps.com/what-is-my-ip/txt/".
Definition START_PAGE : Z := 1.
Definition PROXIES_FILE : string := "free_https_proxies.txt".
Definition RESULTS_FILE : string := "results/found_domains.txt".
Definition REQUEST_HEADERS : gmap string string :=
  list_to_map
    [("Accept", "text/html,application/xhtml+xml,application/xml;q=0.9,image/avif,image/webp,image/apng,*/*;q=0.8,application/signed-exchange;v=b3;q=0.9");
     ("Accept-Encoding", "gzip, deflate, br");
     ("Accept-Language", "en-US,en;q=0.5");
     ("User-Agent", "Mozilla/5.0 (Windows NT 10.0; Win64; x64) AppleWebKit/537.36 (KHTML, like Gecko) Chrome/58.0.3029.110 Safari/537.36")].
Definition MAX_REQUESTS_PER_IP : Z := 20.
Definition TIMEOUT : Z := 120.
Definition REDIRECT_SCRIPT : string :=
  "<script>window.location=window.location.href.split(" +:+ String "034" "#" +:+
  String "034" ")[0];</script>".

(** ** The script *)

Section Script.

Variable E : Env.
(** [os.environ['ANTI_CAPTCHA_KEY']], read once at module load. *)
Variable ANTI_CAPTCHA_KEY : string.
(** Iterations granted to the polling loop of [solve_recaptcha], the one
    loop of the script without a variant. *)
Variable fuel : nat.

Definition requests_of (l : list Event) : list Request :=
  omap (λ e, match e with EvHttp r => Some r | _ => None end) l.
Definition choices_of (l : list Event) : list (nat * nat) :=
  omap (λ e, match e with EvChoice n i => Some (n, i) | _ => None end) l.

(** One call into the [requests] library. *)
Definition http_call (r : Request) : M Response :=
  λ st,
    let st' := set_log (log st ++ [EvHttp r]) st in
    match network E (length (requests_of (log st))) r with
    | inl e => (Raises e, st')
    | inr res => (Returns res, st')
    end.

Definition sleep (seconds : Z) : M unit := emit (EvSleep seconds).

(** [random.choice(range(n))] *)
Definition random_choice_range (n : nat) : M nat :=
  st ← get_state;
  match n with
  | O => raise (GenericException "IndexError")
  | S _ =>
      let i := (random_source E (length (choices_of (log st))) mod n)%nat in
      emit (EvChoice n i);; mret i
  end.

(** *** class Fetcher *)

Definition new_dict : M nat :=
  st ← get_state;
  modify (λ st, set_heap (heap st ++ [∅]) st);;
  mret (length (heap st)).

(** [Fetcher.__init__]: [self.cookies = cookies or {}]. *)
Definition Fetcher__init__ (proxy : option string) (cookies : option nat)
    (timeout : Z) : M Fetcher :=
  st ← get_state;
  jar ← match cookies ≫= λ r, (λ d, (r, d)) <$> heap st !! r with
        | Some (r, d) => if decide (d = ∅) then new_dict else mret r
        | None => new_dict
        end;
  let self := mkFetcher proxy jar timeout in
  modify (λ st, set_sessions (sessions st ++ [self]) st);;
  mret self.

Definition jar_of (st : State) (self : Fetcher) : gmap string string :=
  default ∅ (heap st !! cookies self).

(** [getattr(requests, name)] for the request functions of the library. *)
Definition requests_function (name : string) : bool :=
  bool_decide (name ∈ ["get"; "post"; "put"; "patch"; "delete"; "head"; "options"]).

(** [Fetcher._request] *)
Definition Fetcher__request (self : Fetcher) (url : string) (method : string)
    (data : Body) (_headers : gmap string string) : M (option Response) :=
  if requests_function (Py.lower method) then
    let headers := _headers ∪ REQUEST_HEADERS in
    let proxies := match proxy self with
                   | Some (String c p) => Some (String c p)
                   | _ => None
                   end in
    try_except
      (st ← get_state;
       res ← http_call (mkRequest (Py.lower method) url data headers
                          (jar_of st self) proxies (Some (timeout self)));
       if status_code res =? 200 then
         let new_cookies := res_cookies res in
         modify (λ st, set_heap (alter (λ jar, new_cookies ∪ jar) (cookies self) (heap st)) st);;
         mret (Some res)
       else raise (GenericException "Response status"))
      (λ e, mret None)
  else raise (AttributeError (Py.lower method)).

(** [Fetcher.post] *)
Definition Fetcher_post (self : Fetcher) (url : string) (data : list (string * json))
    : M (option Response) :=
  Fetcher__request self url "post" (FormData data)
    (list_to_map [("Content-Type", "application/x-www-form-urlencoded");
                  ("Host", "myip.ms"); ("Origin", "myip.ms"); ("Referer", url)]).

(** [Fetcher.get] *)
Definition Fetcher_get (self : Fetcher) (url : string) : M (option Response) :=
  Fetcher__request self url "GET" NoBody ∅.

(** *** Files *)

Definition read_proxies_from_file : M (list string) :=
  emit (EvReadFile PROXIES_FILE);;
  match proxies_file E with
  | None => raise (OSError PROXIES_FILE)
  | Some lines => mret (Py.strip_newline <$> lines)
  end.

Definition ensure_directories (file_path : string) : M unit :=
  if Py.contains "/" file_path then
    let dirs_path := Py.dirname file_path in
    st ← get_state;
    if bool_decide (dirs_path ∈ dirs st) then mret ()
    else emit (EvMakeDirs dirs_path);;
         modify (λ st, set_dirs ({[dirs_path]} ∪ dirs st) st)
  else mret ().

(** [write_domains_to_file]; the argument is the iterable in iteration order. *)
Definition write_domains_to_file (domains : list string) : M unit :=
  ensure_directories RESULTS_FILE;;
  modify (λ st, set_results_file (results_file st ++ domains) st).

(** *** Proxy pool *)

Definition proxy_is_working (proxy : string) : M bool :=
  fetcher ← Fetcher__init__ (Some proxy) None TIMEOUT;
  res ← Fetcher_get fetcher IP_API_URL;
  match res with
  | Some res =>
      let ip := text res in
      if Py.contains ip proxy then
        modify (λ st, set_good_proxies (good_proxies st ++ [proxy]) st);;
        mret true
      else mret false
  | None =>
      modify (λ st, set_bad_proxies (bad_proxies st ++ [proxy]) st);;
      mret false
  end.

(** One resumption of the generator [pick_proxy] on its local list
    [proxies]: the yielded proxy and the list left, or exhaustion. *)
Definition pick_proxy_next (proxies : list string)
    : M (option (string * list string)) :=
  match proxies with
  | [] => mret None
  | _ =>
      index ← random_choice_range (length proxies);
      match proxies !! index with
      | Some proxy => mret (Some (proxy, delete index proxies))
      | None => raise (GenericException "IndexError")
      end
  end.

(** *** Anti-Captcha client *)

(** [res.json()] *)
Definition res_json (res : Response) : M json :=
  match json_loads E (text res) with
  | Some v => mret v
  | None => raise JSONDecodeError
  end.

(** [v[k]] for a string key. *)
Definition subscript (v : json) (k : string) : M json :=
  match v with
  | JObj fields =>
      match assoc k fields with
      | Some x => mret x
      | None => raise (KeyError k)
      end
  | _ => raise (TypeError k)
  end.

(** [v.get(k)] *)
Definition dict_get (v : json) (k : string) : M json :=
  match v with
  | JObj fields => mret (default JNull (assoc k fields))
  | _ => raise (AttributeError "get")
  end.

(** A plain [requests.post(url, json=doc)], outside any [Fetcher]. *)
Definition requests_post_json (url : string) (doc : json) : M Response :=
  http_call (mkRequest "post" url (JsonBody doc) ∅ ∅ None None).

(** Returns the task id, [JNull] standing for Python's [None]. *)
Definition _create_anti_captcha_task (url site_key action : string) : M json :=
  let task_data :=
    JObj [("clientKey", JStr ANTI_CAPTCHA_KEY);
          ("task", JObj [("type", JStr "RecaptchaV3TaskProxyless");
                         ("websiteURL", JStr url);
                         ("websiteKey", JStr site_key);
                         ("minScore", JDec 3 (-1));
                         ("pageAction", JStr action);
                         ("isEnterprise", JBool false)]);
          ("softId", JInt 0)] in
  res ← requests_post_json "https://api.anti-captcha.com/createTask" task_data;
  if negb (status_code res =? 200) then mret JNull
  else
    data ← res_json res;
    task_id ← dict_get data "taskId";
    mret task_id.

Definition _get_anti_captcha_solution (task_id : json) : M json :=
  let task_data := JObj [("clientKey", JStr ANTI_CAPTCHA_KEY); ("taskId", task_id)] in
  res ← requests_post_json "https://api.anti-captcha.com/getTaskResult" task_data;
  if negb (status_code res =? 200) then mret JNull
  else
    try_except
      (doc ← res_json res;
       sol ← subscript doc "solution";
       subscript sol "gRecaptchaResponse")
      (λ e, match e with
            | KeyError _ => mret JNull
            | _ => raise e
            end).

(** The loop [while not solution and times_waited < 3] of [solve_recaptcha];
    its body never assigns [times_waited]. *)
Fixpoint poll_solution (n : nat) (task_id solution : json) (times_waited : Z)
    : M json :=
  if (negb (truthy solution) && (times_waited <? 3))%bool then
    match n with
    | O => out_of_fuel
    | S n' =>
        sleep 6;;
        solution ← _get_anti_captcha_solution task_id;
        poll_solution n' task_id solution times_waited
    end
  else mret solution.

(** Returns [(solution, token)] or [None]; the token is [JNull] when the
    input has no [value] attribute. *)
Definition solve_recaptcha (url old_html : string) : M (option (json * json)) :=
  match recaptcha_search E old_html with
  | None => mret None
  | Some (site_key, action) =>
      task_id ← _create_anti_captcha_task url site_key action;
      if negb (truthy task_id) then mret None
      else
        solution ← poll_solution fuel task_id JNull 0;
        if negb (truthy solution) then mret None
        else
          let parsed := html_parser E old_html in
          let input_elem := Soup.find (Some "input") [("name", "captcha_token")] parsed in
          match input_elem with
          | None => raise (AttributeError "get")
          | Some input_elem =>
              let token := from_option JStr JNull (Soup.get "value" input_elem) in
              mret (Some (solution, token))
          end
  end.

(** *** Page queries *)

Definition has_next_page (parsed_html : list node) : M (option bool) :=
  match Soup.find None [("class", "sites_tbl_end")] parsed_html with
  | Some cur_results_end =>
      match Soup.find_next_sibling "b" cur_results_end with
      | Some tot_results =>
          match Py.int (Py.clean (Soup.text_of cur_results_end.1)) with
          | None => raise (ValueError "int")
          | Some cur_results_end_int =>
              match Py.int (Py.clean (Soup.text_of tot_results.1)) with
              | None => raise (ValueError "int")
              | Some tot_results_int =>
                  mret (Some (cur_results_end_int <? tot_results_int))
              end
          end
      | None => mret None
      end
  | None => mret None
  end.

Definition post_solution_and_update_cookies (url : string) (token solution : json)
    (fetcher : Fetcher) : M bool :=
  let data := [("g_recaptcha_loaded", JStr "yes");
               ("captcha_token", token);
               ("g_recaptcha_response", solution)] in
  res ← Fetcher_post fetcher url data;
  match res with
  | None => mret false
  | Some res =>
      st ← get_state;
      if (String.eqb (text res) REDIRECT_SCRIPT
          && bool_decide ("s2_uGoo" ∈ dom (jar_of st fetcher)))%bool
      then mret true
      else mret false
  end.

Definition page_has_recaptcha (html : string) : bool :=
  let html_lower := Py.lower html in
  (Py.contains "human verification" html_lower
   || Py.contains "human being" html_lower)%bool.

(** *** Crawl engine *)

(** Lines 493-497: the cells of the table, the page's set [domains_], the
    update of the global set and the write to the results file. *)
Definition page_domains (table : Soup.tag) : gset string :=
  let cells := Soup.find_all (Some "td") [("class", "row_name")] table in
  list_to_set ((λ c, Py.strip (Soup.text_of c)) <$> cells).

Definition collect_domains (table : Soup.tag) : M unit :=
  let domains_ := page_domains table in
  modify (λ st, set_domains (domains st ∪ domains_) st);;
  write_domains_to_file (elements domains_).

(** Lines 442-478, the branch taken when the page shows a reCAPTCHA.
    [None]: the engine returns [page_next_up] for another proxy;
    otherwise the refetched response and the updated request count. *)
Definition pass_recaptcha (fetcher : Fetcher) (url html : string)
    (num_requests : Z) : M (option (Response * Z)) :=
  solved ← solve_recaptcha url html;
  match solved with
  | None => mret None
  | Some (solution, token) =>
      accepted ← post_solution_and_update_cookies url token solution fetcher;
      if negb accepted then mret None
      else
        res ← Fetcher_get fetcher url;
        let num_requests := num_requests + 1 in
        match res with
        | None => mret None
        | Some res =>
            if page_has_recaptcha (text res) then mret None
            else mret (Some (res, num_requests))
        end
  end.

(** The loop [while num_requests < MAX_REQUESTS_PER_IP]; [n] bounds the
    number of iterations. The result is the function's return value:
    [Some page] for another proxy, [None] when the listing is done. *)
Fixpoint crawl_loop (n : nat) (fetcher : Fetcher) (num_requests page_next_up : Z)
    : M (option Z) :=
  if num_requests <? MAX_REQUESTS_PER_IP then
    match n with
    | O => out_of_fuel
    | S n' =>
        let url := listing_url page_next_up in
        res ← Fetcher_get fetcher url;
        let num_requests := num_requests + 1 in
        match res with
        | None => mret (Some page_next_up)
        | Some res =>
            checked ← (if page_has_recaptcha (text res)
                       then pass_recaptcha fetcher url (text res) num_requests
                       else mret (Some (res, num_requests)));
            match checked with
            | None => mret (Some page_next_up)
            | Some (res, num_requests) =>
                let parsed := html_parser E (text res) in
                match Soup.find (Some "table") [("id", "sites_tbl")] parsed with
                | None => mret (Some page_next_up)
                | Some table =>
                    collect_domains table;;
                    sleep 5;;
                    more_pages ← has_next_page parsed;
                    match more_pages with
                    | None => mret None
                    | Some true =>
                        crawl_loop n' fetcher num_requests (page_next_up + 1)
                    | Some false => mret None
                    end
                end
            end
        end
    end
  else mret (Some page_next_up).

Definition do_some_work_until_finished_or_proxy_dead (proxy : string) (page : Z)
    : M (option Z) :=
  working ← proxy_is_working proxy;
  if negb working then mret (Some page)
  else
    fetcher ← Fetcher__init__ (Some proxy) None TIMEOUT;
    crawl_loop (Z.to_nat MAX_REQUESTS_PER_IP) fetcher 0 page.

(** *** Driver *)

(** [if not page]: [None] and [0] are falsy. *)
Definition page_falsy (page : option Z) : bool :=
  match page with
  | None => true
  | Some p => p =? 0
  end.

(** The [for proxy in pick_proxy()] loop of [main], on the generator's list
    of proxies left; [n] bounds the number of iterations. *)
Fixpoint main_loop (n : nat) (proxies : list string) (page : Z) : M unit :=
  match n with
  | O => out_of_fuel
  | S n' =>
      nxt ← pick_proxy_next proxies;
      match nxt with
      | None => mret ()
      | Some (proxy, proxies) =>
          page ← do_some_work_until_finished_or_proxy_dead proxy page;
          if page_falsy page then mret ()
          else sleep 3;; main_loop n' proxies (default 0 page)
      end
  end.

Definition main : M unit :=
  proxies ← read_proxies_from_file;
  main_loop (S (length proxies)) proxies START_PAGE.

End Script.

(** Running the file as a script: the module body reads the key from the
    environment, then calls [main]. *)
Definition script (E : Env) (fuel : nat) : M unit :=
  match environ E !! "ANTI_CAPTCHA_KEY" with
  | None => raise (KeyError "ANTI_CAPTCHA_KEY")
  | Some key => main E key fuel
  end.

(** ** A synthetic site to run the script against *)

Module Site.

Definition counter (cur_end total : string) : node :=
  NTag "div" [("align", "right"); ("class", "right nowrap arial11")]
    [NTag "b" [("class", "sites_tbl_start")] [NText "1,601"]; NText " - ";
     NTag "b" [("class", "sites_tbl_end")] [NText cur_end]; NText " of ";
     NTag "b" [] [NText total]; NText " records "].

Definition table (names : list string) : node :=
  NTag "table" [("id", "sites_tbl")]
    [NTag "tr" []
       ((λ s, NTag "td" [("class", "row_name")] [NTag "a" [] [NText s]]) <$> names)].

Definition listing (names : list string) (cur_end total : string) : list node :=
  [NTag "html" [] [NTag "body" [] [table names; counter cur_end total]]].

Definition captcha_form : list node :=
  [NTag "html" []
     [NTag "body" []
        [NTag "form" []
           [NTag "input" [("type", "hidden"); ("name", "captcha_token");
                          ("value", "tok-1")] []]]]].

(** Page texts, and what the HTML parser makes of them. *)
Definition MORE : string := "listing 1,650 of 217,793".
Definition LAST : string := "listing 217,793 of 217,793".
Definition NOCOUNTER : string := "listing without counter".
Definition CAPTCHA : string := "Human Verification grecaptcha.execute with form".
Definition CAPTCHA_NOTOKEN : string := "are you a human being? grecaptcha.execute".

Definition parser (html : string) : list node :=
  if String.eqb html MORE then listing ["a.example.com"; " b.example.com "] "1,650" "217,793"
  else if String.eqb html LAST then listing ["z.example.com"] "217,793" "217,793"
  else if String.eqb html NOCOUNTER then
    [NTag "html" [] [NTag "body" [] [table ["c.example.com"]]]]
  else if String.eqb html CAPTCHA then captcha_form
  else [NTag "html" [] [NTag "body" [] [NText html]]].

Definition TASK_CREATED : string := "{taskId: 7}".
Definition PROCESSING : string := "{status: processing}".
Definition READY : string := "{status: ready, solution: {gRecaptchaResponse: 03AG}}".

Definition loads (s : string) : option json :=
  if String.eqb s TASK_CREATED then Some (JObj [("errorId", JInt 0); ("taskId", JInt 7)])
  else if String.eqb s PROCESSING then
    Some (JObj [("errorId", JInt 0); ("status", JStr "processing")])
  else if String.eqb s READY then
    Some (JObj [("errorId", JInt 0); ("status", JStr "ready");
                ("solution", JObj [("gRecaptchaResponse", JStr "03AG")])])
  else None.

Definition search (html : string) : option (string * string) :=
  if Py.contains "grecaptcha.execute" html then Some ("SITEKEY123", "submit")
  else None.

Definition ok (body : string) : exn + Response := inr (mkResponse 200 body ∅ "").
Definition ok_cookie (body : string) : exn + Response :=
  inr (mkResponse 200 body {["s2_uGoo" := "1"]} "").

(** An environment from a network behaviour and a proxies file. *)
Definition env (net : nat → Request → exn + Response) (lines : list string) : Env :=
  {| network := net; html_parser := parser; json_loads := loads;
     recaptcha_search := search; random_source := λ _, O;
     proxies_file := Some lines;
     environ := {["ANTI_CAPTCHA_KEY" := "secret123"]} |}.

Definition is_oracle (r : Request) : bool :=
  Py.contains "api.anti-captcha.com" (req_url r).
Definition is_ip_check (r : Request) : bool := String.eqb (req_url r) IP_API_URL.

(** The echo service answers with the proxy's own address, the listing
    behaves as [pages] says (by request number), the oracle creates the
    task and answers every poll with [poll]. *)
Definition net (pages : nat → exn + Response) (poll : string)
    (n : nat) (r : Request) : exn + Response :=
  if is_ip_check r then ok "1.2.3.4"
  else if is_oracle r then
    if Py.contains "createTask" (req_url r) then ok TASK_CREATED else ok poll
  else if String.eqb (req_method r) "post" then ok_cookie REDIRECT_SCRIPT
  else pages n.

Definition PROXY : string := "1.2.3.4:8080".

(** The oracle never has a solution. *)
Definition never_ready : Env := env (net (λ _, ok CAPTCHA) PROCESSING) [PROXY].

(** The echo service reports an address that is not the proxy's. *)
Definition other_ip : Env := env (λ _ _, ok "9.9.9.9") [PROXY].

(** Nineteen listing pages, then a challenge that is solved and accepted.
    Request 0 is the proxy check, requests 1 to 19 fetch pages. *)
Definition challenge_at_20 : Env :=
  env (net (λ n, if (n =? 20)%nat then ok CAPTCHA else ok MORE) READY) [PROXY].

(** A site that always has one more page. *)
Definition endless : Env := env (net (λ _, ok MORE) READY) [PROXY].



(** A challenge page without the hidden [captcha_token] input. *)
Definition no_token : Env := env (net (λ _, ok CAPTCHA_NOTOKEN) READY) [PROXY].

(** The oracle cannot be reached. *)
Definition oracle_down : Env :=
  env (λ n r, if is_oracle r then inl (RequestException "ConnectionError")
              else net (λ _, ok CAPTCHA) READY n r) [PROXY].

(** No key in the process environment. *)
Definition no_key : Env :=
  {| network := net (λ _, ok MORE) READY; html_parser := parser; json_loads := loads;
     recaptcha_search := search; random_source := λ _, O;
     proxies_file := Some [PROXY]; environ := ∅ |}.

End Site.

(** ** Notions used in the statements *)

(** [I] is kept by every run of [m], however it ends. *)
Definition preserves {A} (I : State → Prop) (m : M A) : Prop :=
  ∀ st, I st → I (m st).2.

(** Cookie jars are separate: the Fetchers constructed so far hold pairwise
    different dict objects, all of them allocated. *)
Definition jars_separate (st : State) : Prop :=
  NoDup (cookies <$> sessions st)
  ∧ Forall (λ f, (cookies f < length (heap st))%nat) (sessions st).

(** The first [n] resumptions of the generator [pick_proxy]: the proxies
    yielded, in order, and the generator's list afterwards. *)
Fixpoint drain (E : Env) (n : nat) (proxies : list string)
    : M (list string * list string) :=
  match n with
  | O => mret ([], proxies)
  | S n' =>
      nxt ← pick_proxy_next E proxies;
      match nxt with
      | None => mret ([], [])
      | Some (proxy, rest) =>
          r ← drain E n' rest;
          mret (proxy :: r.1, r.2)
      end
  end.

(** The record step of the engine applied to a sequence of result tables. *)
Fixpoint collect_pages (tables : list Soup.tag) : M unit :=
  match tables with
  | [] => mret ()
  | t :: ts => collect_domains t;; collect_pages ts
  end.

(** Requests sent through proxy [p], and among requests the page fetches
    (GETs of a listing page). *)
Definition through (p : string) (l : list Request) : list Request :=
  filter (λ r, req_proxies r = Some p) l.
Definition is_page_fetch (r : Request) : bool :=
  (String.eqb (req_method r) "get" && String.prefix "https://myip.ms/browse/sites/" (req_url r))%bool.
Definition page_fetches (l : list Request) : list Request :=
  filter (λ r, is_page_fetch r = true) l.

(** The request a Fetcher sends for [_request(url, method, data, _headers)]
    in state [st]. *)
Definition request_sent (self : Fetcher) (url method : string) (data : Body)
    (hdrs : gmap string string) (st : State) : Request :=
  mkRequest (Py.lower method) url data (hdrs ∪ REQUEST_HEADERS)
    (jar_of st self)
    (match proxy self with
     | Some (String c p) => Some (String c p)
     | _ => None
     end)
    (Some (timeout self)).

(** Number of page fetches logged so far. *)
Definition fetch_count (st : State) : nat :=
  length (page_fetches (requests_of (log st))).

(** What a run may do to the script's global variables: the two proxy
    lists and the results file only get longer, [domains] only gets larger,
    and every line added to the file is in [domains]. *)
Definition grows (st st' : State) : Prop :=
  good_proxies st `prefix_of` good_proxies st'
  ∧ bad_proxies st `prefix_of` bad_proxies st'
  ∧ domains st ⊆ domains st'
  ∧ ∃ lines, results_file st' = results_file st ++ lines
             ∧ ∀ x, x ∈ lines → x ∈ domains st'.

(** At most [c] page fetches were logged. *)
Definition fetches_bounded (c : nat) (st : State) : Prop :=
  (fetch_count st ≤ c)%nat.

(** No character of [s] is [c]. *)
Fixpoint free_of (c : ascii) (s : string) : bool :=
  match s with
  | EmptyString => true
  | String a s' => (negb (Ascii.eqb a c) && free_of c s')%bool
  end.

(** ** Properties *)

Section MonadFacts.
Context {A B : Type}.

Lemma bind_unfold (m : M A) (k : A → M B) st :
  (m ≫= k) st = match m st with
                | (Returns a, st') => k a st'
                | (Raises e, st') => (Raises e, st')
                | (OutOfFuel, st') => (OutOfFuel, st')
                end.
Proof. reflexivity. Qed.

Lemma bind_returns (m : M A) (k : A → M B) st a st' :
  m st = (Returns a, st') → (m ≫= k) st = k a st'.
Proof. intros H. rewrite bind_unfold, H. reflexivity. Qed.

Lemma preserves_ret (I : State → Prop) (a : A) : preserves I (mret a : M A).
Proof. intros st H. exact H. Qed.

Lemma preserves_raise (I : State → Prop) e : preserves I (raise e : M A).
Proof. intros st H. exact H. Qed.

Lemma preserves_out_of_fuel (I : State → Prop) : preserves I (out_of_fuel : M A).
Proof. intros st H. exact H. Qed.

Lemma preserves_bind (I : State → Prop) (m : M A) (k : A → M B) :
  preserves I m → (∀ a, preserves I (k a)) → preserves I (m ≫= k).
Proof.
  intros Hm Hk st H. rewrite bind_unfold.
  specialize (Hm st H). destruct (m st) as [[a| e |] st']; simpl in *; auto.
  apply Hk, Hm.
Qed.

Lemma preserves_try_except (I : State → Prop) (m : M A) (h : exn → M A) :
  preserves I m → (∀ e, preserves I (h e)) → preserves I (try_except m h).
Proof.
  intros Hm Hh st H. unfold try_except.
  specialize (Hm st H). destruct (m st) as [[a| e |] st']; simpl in *; auto.
  apply Hh, Hm.
Qed.

End MonadFacts.

Lemma preserves_get_state (I : State → Prop) : preserves I get_state.
Proof. intros st H. exact H. Qed.

Lemma preserves_modify (I : State → Prop) f :
  (∀ st, I st → I (f st)) → preserves I (modify f).
Proof. intros Hf st H. apply Hf, H. Qed.

(** *** The proxy pool: [pick_proxy] *)

Section Pool.
Variable E : Env.

Lemma random_choice_range_spec n st :
  (0 < n)%nat →
  ∃ i, (i < n)%nat
       ∧ random_choice_range E n st
         = (Returns i, set_log (log st ++ [EvChoice n i]) st).
Proof.
  intros Hn. destruct n as [|n]; [lia|].
  exists (random_source E (length (choices_of (log st))) `mod` S n)%nat.
  split; [|reflexivity].
  apply Nat.mod_upper_bound. lia.
Qed.

Lemma pick_proxy_next_nil st : pick_proxy_next E [] st = (Returns None, st).
Proof. reflexivity. Qed.

Lemma pick_proxy_next_cons p0 ps st :
  ∃ i p, (p0 :: ps) !! i = Some p
         ∧ pick_proxy_next E (p0 :: ps) st
           = (Returns (Some (p, delete i (p0 :: ps))),
              set_log (log st ++ [EvChoice (length (p0 :: ps)) i]) st).
Proof.
  destruct (random_choice_range_spec (length (p0 :: ps)) st) as (i & Hi & Hr).
  { simpl. lia. }
  destruct (lookup_lt_is_Some_2 (p0 :: ps) i Hi) as [p Hp].
  exists i, p. split; [exact Hp|].
  unfold pick_proxy_next. rewrite (bind_returns _ _ _ _ _ Hr), Hp. reflexivity.
Qed.

(** A resumption never raises and never runs out of fuel. *)
Lemma pick_proxy_next_returns proxies st :
  ∃ r st', pick_proxy_next E proxies st = (Returns r, st')
           ∧ match r with
             | None => proxies = []
             | Some (p, rest) => proxies ≡ₚ p :: rest
             end.
Proof.
  destruct proxies as [|p0 ps].
  - eexists _, _. split; [apply pick_proxy_next_nil|done].
  - destruct (pick_proxy_next_cons p0 ps st) as (i & p & Hp & Hr).
    eexists _, _. split; [exact Hr|]. by apply delete_Permutation.
Qed.

Lemma drain_spec n proxies st :
  ∃ ys left st',
    drain E n proxies st = (Returns (ys, left), st')
    ∧ ys ++ left ≡ₚ proxies
    ∧ length ys = (n `min` length proxies)%nat.
Proof.
  revert proxies st. induction n as [|n IH]; intros proxies st.
  - exists [], proxies, st. done.
  - destruct (pick_proxy_next_returns proxies st) as (r & st1 & Hr & Hperm).
    simpl drain. rewrite (bind_returns _ _ _ _ _ Hr).
    destruct r as [[p rest]|].
    + destruct (IH rest st1) as (ys & left & st2 & Hd & Hp & Hlen).
      exists (p :: ys), left, st2.
      rewrite (bind_returns _ _ _ _ _ Hd). split; [done|]. split.
      * simpl. by rewrite Hp, Hperm.
      * simpl. rewrite Hlen, Hperm. simpl. done.
    + subst proxies. exists [], [], st1. done.
Qed.


(** When the file lists no address twice, no address is yielded twice. *)
Lemma drain_NoDup n proxies st ys left st' :
  drain E n proxies st = (Returns (ys, left), st') →
  NoDup proxies → NoDup ys.
Proof.
  intros Hd Hnd.
  destruct (drain_spec n proxies st) as (ys' & left' & st'' & Hd' & Hp & _).
  rewrite Hd in Hd'. simplify_eq.
  rewrite <- Hp in Hnd. by apply NoDup_app in Hnd as [? _].
Qed.

End Pool.

(** *** Module load *)

(** C10. If the process environment has no [ANTI_CAPTCHA_KEY], running the
    script raises [KeyError] for that name and leaves the state as it was:
    nothing has been logged, so the proxies file was not read and no request
    was sent. *)
Theorem C10_missing_key_fails_at_load (E : Env) (fuel : nat) (st : State) :
  environ E !! "ANTI_CAPTCHA_KEY" = None →
  script E fuel st = (Raises (KeyError "ANTI_CAPTCHA_KEY"), st).
Proof. intros H. unfold script. rewrite H. reflexivity. Qed.

Lemma C10_missing_key_witness :
  script Site.no_key 3 initial_state
  = (Raises (KeyError "ANTI_CAPTCHA_KEY"), initial_state)
  ∧ log initial_state = [].
Proof.
  split; [|reflexivity].
  apply (C10_missing_key_fails_at_load Site.no_key 3 initial_state).
  reflexivity.
Defined.

(** With a key, the first effect of the script is reading the proxies file. *)
Lemma script_reads_proxies_first (E : Env) fuel key st :
  environ E !! "ANTI_CAPTCHA_KEY" = Some key →
  proxies_file E = None →
  script E fuel st
  = (Raises (OSError PROXIES_FILE), set_log (log st ++ [EvReadFile PROXIES_FILE]) st).
Proof. intros H1 H2. unfold script, main, read_proxies_from_file. rewrite H1.
  rewrite bind_unfold. cbn. rewrite H2. reflexivity. Qed.

(** *** [proxy_is_working] and its two lists *)

(** C2. A proxy through which the echo service answers with an address that
    is not part of the proxy string: [proxy_is_working] returns [False] and
    the proxy is in neither [good_proxies] nor [bad_proxies]. *)
Theorem C2_mismatching_proxy_is_in_neither_list :
  let r := proxy_is_working Site.other_ip Site.PROXY initial_state in
  r.1 = Returns false
  ∧ good_proxies r.2 = []
  ∧ bad_proxies r.2 = [].
Proof. vm_compute. done. Qed.

(** *** The solution polling loop *)

Lemma poll_never_ready key n st :
  ∃ st',
    poll_solution Site.never_ready key n (JInt 7) JNull 0 st = (OutOfFuel, st')
    ∧ length (requests_of (log st')) = (length (requests_of (log st)) + n)%nat
    ∧ heap st' = heap st ∧ sessions st' = sessions st.
Proof.
  revert st. induction n as [|n IH]; intros st.
  - exists st. split; [reflexivity|]. split; [lia|done].
  - set (st1 := set_log (log st ++ [EvSleep 6]) st).
    set (req := mkRequest "post" "https://api.anti-captcha.com/getTaskResult"
                  (JsonBody (JObj [("clientKey", JStr key); ("taskId", JInt 7)]))
                  ∅ ∅ None None).
    set (st2 := set_log (log st1 ++ [EvHttp req]) st1).
    destruct (IH st2) as (st' & Hp & Hlen & Hheap & Hsess).
    exists st'. split; [|split].
    + simpl poll_solution. exact Hp.
    + rewrite Hlen. subst st2 st1. simpl.
      unfold requests_of. rewrite !omap_app, !length_app. simpl. lia.
    + rewrite Hheap, Hsess. done.
Qed.

(** C1. Against an oracle that creates the task and then answers every poll
    with a document without solution, the polling loop of [solve_recaptcha]
    does not give up after three polls: whatever number of iterations it is
    granted, it uses them all (one request for the task, one per iteration)
    and has not returned. *)
Theorem C1_polling_never_gives_up (key url : string) (fuel : nat) :
  let r := solve_recaptcha Site.never_ready key fuel url Site.CAPTCHA initial_state in
  r.1 = OutOfFuel
  ∧ length (requests_of (log r.2)) = S fuel.
Proof.
  set (create := mkRequest "post" "https://api.anti-captcha.com/createTask"
        (JsonBody (JObj [("clientKey", JStr key);
          ("task", JObj [("type", JStr "RecaptchaV3TaskProxyless");
                         ("websiteURL", JStr url);
                         ("websiteKey", JStr "SITEKEY123");
                         ("minScore", JDec 3 (-1));
                         ("pageAction", JStr "submit");
                         ("isEnterprise", JBool false)]);
          ("softId", JInt 0)])) ∅ ∅ None None).
  destruct (poll_never_ready key fuel (set_log [EvHttp create] initial_state))
    as (st' & Hp & Hlen & _).
  assert (solve_recaptcha Site.never_ready key fuel url Site.CAPTCHA initial_state
          = (OutOfFuel, st')) as ->.
  { unfold solve_recaptcha. cbn -[poll_solution _create_anti_captcha_task].
    rewrite (bind_returns _ _ _ (JInt 7) (set_log [EvHttp create] initial_state))
      by reflexivity.
    cbn -[poll_solution]. rewrite bind_unfold, Hp. reflexivity. }
  simpl. split; [done|]. rewrite Hlen. reflexivity.
Qed.

(** *** Exceptions reaching the caller *)

(** A [Fetcher] request through [get] or [post] always returns: transport
    errors and other statuses come back as [None]. *)
Lemma Fetcher__request_returns E self url method data hdrs st :
  requests_function (Py.lower method) = true →
  ∃ r st', Fetcher__request E self url method data hdrs st = (Returns r, st').
Proof.
  intros Hm. unfold Fetcher__request. rewrite Hm.
  unfold try_except. rewrite bind_unfold. cbn [get_state].
  rewrite bind_unfold. unfold http_call.
  destruct (network E _ _) as [e|res]; [by eexists _, _|].
  destruct (status_code res =? 200); by eexists _, _.
Qed.

Lemma Fetcher_get_returns E self url st :
  ∃ r st', Fetcher_get E self url st = (Returns r, st').
Proof. by apply Fetcher__request_returns. Qed.

Lemma Fetcher_post_returns E self url data st :
  ∃ r st', Fetcher_post E self url data st = (Returns r, st').
Proof. by apply Fetcher__request_returns. Qed.

(** C8. Component functions that raise to their caller: [solve_recaptcha] on
    a solved challenge whose page has no [captcha_token] input raises
    [AttributeError]; [_create_anti_captcha_task] raises the transport error
    of its unguarded request; [has_next_page] raises [ValueError] on a
    counter that is not a number; and the first of these ends the whole
    script with the exception. *)
Theorem C8_component_functions_raise :
  (solve_recaptcha Site.no_token "secret123" 5 (listing_url 1)
     Site.CAPTCHA_NOTOKEN initial_state).1
  = Raises (AttributeError "get")
  ∧ (_create_anti_captcha_task Site.oracle_down "secret123" (listing_url 1)
       "SITEKEY123" "submit" initial_state).1
    = Raises (RequestException "ConnectionError")
  ∧ (has_next_page [Site.counter "n/a" "217,793"] initial_state).1
    = Raises (ValueError "int")
  ∧ (script Site.no_token 5 initial_state).1 = Raises (AttributeError "get").
Proof. vm_compute. done. Qed.

(** *** The request budget of one proxy *)

(** C4. Nineteen ordinary pages, then a challenge page on the twentieth
    fetch: the engine goes on using the proxy after the twentieth page fetch,
    posting the solution and fetching the page a twenty-first time, before
    it returns the advanced cursor. Without a challenge it stops after
    twenty page fetches. *)
Theorem C4_budget_exceeded_by_challenge :
  let r := do_some_work_until_finished_or_proxy_dead
             Site.challenge_at_20 "secret123" 5 Site.PROXY 1 initial_state in
  let sent := through Site.PROXY (requests_of (log r.2)) in
  r.1 = Returns (Some 21)
  ∧ length (page_fetches sent) = 21%nat
  ∧ req_method <$> drop 21 sent = ["post"; "get"]
  ∧ let r' := do_some_work_until_finished_or_proxy_dead
                Site.endless "secret123" 5 Site.PROXY 1 initial_state in
    r'.1 = Returns (Some 21)
    ∧ length (page_fetches (through Site.PROXY (requests_of (log r'.2)))) = 20%nat.
Proof. vm_compute. done. Qed.

(** *** Recording the domains of a page *)

Lemma collect_domains_spec (table : Soup.tag) st :
  ∃ st', collect_domains table st = (Returns (), st')
         ∧ domains st' = domains st ∪ page_domains table
         ∧ results_file st' = results_file st ++ elements (page_domains table)
         ∧ heap st' = heap st ∧ sessions st' = sessions st
         ∧ requests_of (log st') = requests_of (log st).
Proof.
  unfold collect_domains, write_domains_to_file, ensure_directories.
  change (Py.contains "/" RESULTS_FILE) with true. cbv iota.
  rewrite bind_unfold. cbn [modify]. rewrite !bind_unfold. cbn [get_state].
  destruct (bool_decide _).
  - eexists. split; [reflexivity|]. done.
  - eexists. split; [reflexivity|]. cbn. repeat split; try done.
    unfold requests_of. rewrite omap_app. cbn. by rewrite app_nil_r.
Qed.

Lemma collect_pages_spec (tables : list Soup.tag) st :
  ∃ st', collect_pages tables st = (Returns (), st')
         ∧ domains st' = domains st ∪ ⋃ (page_domains <$> tables)
         ∧ results_file st'
           = results_file st ++ concat ((elements ∘ page_domains) <$> tables).
Proof.
  revert st. induction tables as [|t ts IH]; intros st.
  - exists st. split; [done|]. split; [set_solver|]. by rewrite app_nil_r.
  - destruct (collect_domains_spec t st)
      as (st1 & H1 & Hd1 & Hf1 & _).
    destruct (IH st1) as (st2 & H2 & Hd2 & Hf2).
    exists st2. simpl collect_pages. rewrite (bind_returns _ _ _ _ _ H1).
    split; [done|]. split.
    + rewrite Hd2, Hd1. simpl. set_solver.
    + rewrite Hf2, Hf1. simpl. by rewrite <- app_assoc.
Qed.

(** C3 (as stated, refuted). Processing a second time a page whose records
    are all in the global set already appends its lines to the results file
    once more. *)
Lemma C3_reprocessing_appends_again :
  ¬ (∀ (table : Soup.tag) (st : State),
       page_domains table ⊆ domains st →
       results_file (collect_domains table st).2 = results_file st).
Proof.
  intros H.
  pose (t := (Site.table ["a.example.com"], [] : list node)).
  pose (st1 := (collect_domains t initial_state).2).
  specialize (H t st1).
  assert (page_domains t ⊆ domains st1) as Hsub.
  { destruct (collect_domains_spec t initial_state) as (st' & Heq & Hd & _).
    subst st1. rewrite Heq. simpl. rewrite Hd. set_solver. }
  specialize (H Hsub). vm_compute in H. discriminate H.
Qed.

(** C3 (amended). Recording a page adds its record set to the global set and
    appends every record of the page, each once, to the results file, whether
    or not the global set held it already; after a sequence of pages the
    global set is what it was joined with the union of the pages' record
    sets, and the file has grown by the pages' records, page after page. *)
Theorem C3_global_set_is_union_and_pages_are_appended
    (tables : list Soup.tag) (table : Soup.tag) (st : State) :
  (∃ st', collect_domains table st = (Returns (), st')
          ∧ domains st' = domains st ∪ page_domains table
          ∧ results_file st' = results_file st ++ elements (page_domains table)
          ∧ NoDup (elements (page_domains table)))
  ∧ (∃ st', collect_pages tables st = (Returns (), st')
            ∧ domains st' = domains st ∪ ⋃ (page_domains <$> tables)
            ∧ results_file st'
              = results_file st ++ concat ((elements ∘ page_domains) <$> tables)).
Proof.
  split; [|apply collect_pages_spec].
  destruct (collect_domains_spec table st) as (st' & Heq & Hd & Hf & _).
  exists st'. repeat split; try done. apply NoDup_elements.
Qed.

(** *** Pagination and the engine's decisions *)





Section Engine.
Variables (E : Env) (key : string) (fuel : nat).






End Engine.




(** *** Cookie jars *)

Lemma jars_separate_frame st st' :
  length (heap st') = length (heap st) →
  sessions st' = sessions st →
  jars_separate st → jars_separate st'.
Proof. intros Hh Hs [Hnd Hall]. split; rewrite Hs, ?Hh; done. Qed.

Lemma jars_separate_initial : jars_separate initial_state.
Proof. split; [apply NoDup_nil_2|apply Forall_nil_2]. Qed.

Create HintDb jars discriminated.

Ltac jars_step :=
  first
    [ solve [auto with jars]
    | apply preserves_ret
    | apply preserves_raise
    | apply preserves_out_of_fuel
    | apply preserves_get_state
    | apply preserves_bind; [|intros ?]
    | apply preserves_try_except; [|intros ?]
    | apply preserves_modify; intros ? ?;
      eapply jars_separate_frame; [| |eassumption]; [reflexivity|reflexivity]
    | progress cbv zeta
    | match goal with
      | |- preserves _ (match ?x with _ => _ end) => destruct x
      end ].
Ltac jars := repeat jars_step.

Lemma emit_jars e : preserves jars_separate (emit e).
Proof. unfold emit. jars. Qed.
#[local] Hint Resolve emit_jars : jars.

Lemma sleep_jars s : preserves jars_separate (sleep s).
Proof. unfold sleep. jars. Qed.
#[local] Hint Resolve sleep_jars : jars.

Section Jars.
Variables (E : Env) (key : string) (fuel : nat).

Lemma http_call_jars r : preserves jars_separate (http_call E r).
Proof.
  intros st H. unfold http_call.
  destruct (network E _ r); simpl;
    (eapply jars_separate_frame; [| |exact H]; reflexivity).
Qed.
Hint Resolve http_call_jars : jars.

(** A Fetcher constructed without a [cookies] argument gets a dict of its
    own, allocated for it. *)
Lemma Fetcher__init__fresh p t st :
  Fetcher__init__ p None t st
  = (Returns (mkFetcher p (length (heap st)) t),
     set_sessions (sessions st ++ [mkFetcher p (length (heap st)) t])
       (set_heap (heap st ++ [∅]) st)).
Proof. reflexivity. Qed.

Lemma Fetcher__init__jars p t : preserves jars_separate (Fetcher__init__ p None t).
Proof.
  intros st [Hnd Hall]. rewrite Fetcher__init__fresh. cbn.
  split; cbn.
  - rewrite fmap_app. apply NoDup_app. split; [done|]. split; [|apply NoDup_singleton].
    intros x Hx Hx'. apply list_elem_of_singleton in Hx'. subst x.
    apply list_elem_of_fmap in Hx as (f & Hf & Hin).
    rewrite Forall_forall in Hall. specialize (Hall f Hin). cbn in Hf. lia.
  - rewrite length_app. cbn. apply Forall_app. split.
    + eapply Forall_impl; [exact Hall|]. intros f Hf. cbn in Hf. lia.
    + apply Forall_singleton. cbn. lia.
Qed.
Hint Resolve Fetcher__init__jars : jars.

Lemma Fetcher__request_jars self url method data hdrs :
  preserves jars_separate (Fetcher__request E self url method data hdrs).
Proof.
  unfold Fetcher__request. jars.
  apply preserves_modify. intros st H.
  eapply jars_separate_frame; [| |exact H]; [|reflexivity].
  cbn. apply length_alter.
Qed.
Hint Resolve Fetcher__request_jars : jars.

Lemma Fetcher_get_jars self url : preserves jars_separate (Fetcher_get E self url).
Proof. unfold Fetcher_get. jars. Qed.
Lemma Fetcher_post_jars self url data :
  preserves jars_separate (Fetcher_post E self url data).
Proof. unfold Fetcher_post. jars. Qed.
Hint Resolve Fetcher_get_jars Fetcher_post_jars : jars.

Lemma read_proxies_from_file_jars :
  preserves jars_separate (read_proxies_from_file E).
Proof. unfold read_proxies_from_file. jars. Qed.

Lemma collect_domains_jars table : preserves jars_separate (collect_domains table).
Proof.
  unfold collect_domains, write_domains_to_file, ensure_directories. jars.
Qed.
Hint Resolve read_proxies_from_file_jars collect_domains_jars : jars.

Lemma proxy_is_working_jars p : preserves jars_separate (proxy_is_working E p).
Proof. unfold proxy_is_working. jars. Qed.
Hint Resolve proxy_is_working_jars : jars.

Lemma pick_proxy_next_jars proxies :
  preserves jars_separate (pick_proxy_next E proxies).
Proof. unfold pick_proxy_next, random_choice_range. jars. Qed.
Hint Resolve pick_proxy_next_jars : jars.

Lemma _create_anti_captcha_task_jars url site_key action :
  preserves jars_separate (_create_anti_captcha_task E key url site_key action).
Proof.
  unfold _create_anti_captcha_task, requests_post_json, res_json, dict_get. jars.
Qed.

Lemma _get_anti_captcha_solution_jars task_id :
  preserves jars_separate (_get_anti_captcha_solution E key task_id).
Proof.
  unfold _get_anti_captcha_solution, requests_post_json, res_json, subscript. jars.
Qed.
Hint Resolve _create_anti_captcha_task_jars _get_anti_captcha_solution_jars : jars.

Lemma poll_solution_jars n task_id solution times_waited :
  preserves jars_separate (poll_solution E key n task_id solution times_waited).
Proof.
  revert solution. induction n as [|n IH]; intros solution; cbn [poll_solution]; jars.
Qed.
Hint Resolve poll_solution_jars : jars.

Lemma solve_recaptcha_jars url html :
  preserves jars_separate (solve_recaptcha E key fuel url html).
Proof. unfold solve_recaptcha. jars. Qed.

Lemma has_next_page_jars doc : preserves jars_separate (has_next_page doc).
Proof. unfold has_next_page. jars. Qed.

Lemma post_solution_and_update_cookies_jars url token solution fetcher :
  preserves jars_separate (post_solution_and_update_cookies E url token solution fetcher).
Proof. unfold post_solution_and_update_cookies. jars. Qed.
Hint Resolve solve_recaptcha_jars has_next_page_jars
  post_solution_and_update_cookies_jars : jars.

Lemma pass_recaptcha_jars fetcher url html num :
  preserves jars_separate (pass_recaptcha E key fuel fetcher url html num).
Proof. unfold pass_recaptcha. jars. Qed.
Hint Resolve pass_recaptcha_jars : jars.

Lemma crawl_loop_jars n fetcher num page :
  preserves jars_separate (crawl_loop E key fuel n fetcher num page).
Proof.
  revert num page. induction n as [|n IH]; intros num page; cbn [crawl_loop]; jars.
Qed.
Hint Resolve crawl_loop_jars : jars.

Lemma do_some_work_jars p page :
  preserves jars_separate
    (do_some_work_until_finished_or_proxy_dead E key fuel p page).
Proof. unfold do_some_work_until_finished_or_proxy_dead. jars. Qed.
Hint Resolve do_some_work_jars : jars.

Lemma main_loop_jars n proxies page :
  preserves jars_separate (main_loop E key fuel n proxies page).
Proof.
  revert proxies page. induction n as [|n IH]; intros proxies page;
    cbn [main_loop]; jars.
Qed.
Hint Resolve main_loop_jars : jars.

Lemma main_jars : preserves jars_separate (main E key fuel).
Proof. unfold main. jars. Qed.

End Jars.

Lemma script_jars E fuel : preserves jars_separate (script E fuel).
Proof. unfold script. destruct (environ E !! _); [apply main_jars|apply preserves_raise]. Qed.

(** What one request does to the heap of cookie jars. *)
Lemma Fetcher__request_heap E self url method data hdrs st :
  let r := Fetcher__request E self url method data hdrs st in
  match r.1 with
  | Returns (Some res) =>
      status_code res = 200
      ∧ (∃ req, log r.2 = log st ++ [EvHttp req]
                ∧ network E (length (requests_of (log st))) req = inr res)
      ∧ heap r.2 = alter (λ jar, res_cookies res ∪ jar) (cookies self) (heap st)
  | _ => heap r.2 = heap st
  end.
Proof.
  unfold Fetcher__request. destruct (requests_function _); [|reflexivity].
  unfold try_except. rewrite bind_unfold. cbn [get_state].
  rewrite bind_unfold. unfold http_call.
  destruct (network E _ _) as [e|res] eqn:Hnet; [reflexivity|].
  destruct (status_code res =? 200) eqn:Hst; [|reflexivity].
  cbn. split; [lia|]. split; [|reflexivity].
  eexists. split; [reflexivity|exact Hnet].
Qed.

Lemma Fetcher__request_other_jars E self url method data hdrs st j :
  j ≠ cookies self →
  heap (Fetcher__request E self url method data hdrs st).2 !! j = heap st !! j.
Proof.
  intros Hj.
  pose proof (Fetcher__request_heap E self url method data hdrs st) as H.
  cbv zeta in H.
  destruct (Fetcher__request E self url method data hdrs st) as [[[res|]| |] st'];
    cbn in *; try (by rewrite H).
  destruct H as (_ & _ & ->). by apply list_lookup_alter_ne.
Qed.

(** Aliasing is possible only through the constructor's [cookies] argument,
    which the script never passes: a non-empty dict handed over is used as
    it is. *)
Lemma Fetcher__init__aliases p t r d st :
  heap st !! r = Some d → d ≠ ∅ →
  (Fetcher__init__ p (Some r) t st).1 = Returns (mkFetcher p r t).
Proof.
  intros Hr Hd. unfold Fetcher__init__. rewrite bind_unfold. cbn [get_state].
  cbn [mbind option_bind]. rewrite Hr. cbn [fmap option_fmap option_map].
  destruct (decide (d = ∅)); [done|]. reflexivity.
Qed.

(** C7. A request of a Fetcher changes the heap of cookie jars only when it
    returns a response, which then has status 200 and is the network's
    answer to the request just logged, and the change is the update of the
    Fetcher's own jar with the response's cookies; in every other case
    (transport error, other status) all jars are as before, and the jars of
    other Fetchers are never touched. Every Fetcher the script constructs
    gets a newly allocated dict, so over a whole run of the script, whatever
    the outside world does, the Fetchers constructed hold pairwise different
    jars. *)
Theorem C7_cookie_jar_updated_on_200_and_never_shared (E : Env) (fuel : nat) :
  (∀ self url method data hdrs st,
     let r := Fetcher__request E self url method data hdrs st in
     match r.1 with
     | Returns (Some res) =>
         status_code res = 200
         ∧ (∃ req, log r.2 = log st ++ [EvHttp req]
                   ∧ network E (length (requests_of (log st))) req = inr res)
         ∧ heap r.2 = alter (λ jar, res_cookies res ∪ jar) (cookies self) (heap st)
     | _ => heap r.2 = heap st
     end
     ∧ ∀ j, j ≠ cookies self → heap r.2 !! j = heap st !! j)
  ∧ (∀ p t st,
       Fetcher__init__ p None t st
       = (Returns (mkFetcher p (length (heap st)) t),
          set_sessions (sessions st ++ [mkFetcher p (length (heap st)) t])
            (set_heap (heap st ++ [∅]) st)))
  ∧ NoDup (cookies <$> sessions (script E fuel initial_state).2)
  ∧ Forall (λ f, (cookies f < length (heap (script E fuel initial_state).2))%nat)
      (sessions (script E fuel initial_state).2).
Proof.
  split; [|split].
  - intros self url method data hdrs st r. split.
    + apply Fetcher__request_heap.
    + intros j Hj. by apply Fetcher__request_other_jars.
  - intros. apply Fetcher__init__fresh.
  - apply (script_jars E fuel initial_state jars_separate_initial).
Qed.

Lemma C7_witness :
  let E := Site.env (λ _ _, inl (RequestException "ConnectTimeout")) [] in
  let f := mkFetcher (Some Site.PROXY) 0 TIMEOUT in
  let st := set_heap [{["sid" := "1"]}; ∅] initial_state in
  heap (Fetcher_get E f IP_API_URL st).2 = heap st
  ∧ heap (Fetcher_get Site.endless f IP_API_URL st).2 !! 1%nat = Some ∅
  ∧ NoDup (cookies <$> sessions (script Site.endless 5 initial_state).2).
Proof.
  intros E f st.
  destruct (C7_cookie_jar_updated_on_200_and_never_shared E 5) as (Hreq & _).
  destruct (C7_cookie_jar_updated_on_200_and_never_shared Site.endless 5)
    as (Hreq' & _ & Hnd & _).
  split; [|split].
  - exact (proj1 (Hreq f IP_API_URL "GET" NoBody ∅ st)).
  - apply (proj2 (Hreq' f IP_API_URL "GET" NoBody ∅ st) 1%nat). cbn. lia.
  - exact Hnd.
Defined.

(** *** The bounded loops need no fuel of their own *)


Ltac bind_inv H :=
  rewrite bind_unfold in H;
  match type of H with
  | context [match ?m ?st with _ => _ end] =>
      let E := fresh "Hrun" in
      destruct (m st) as [[?| ? |] ?] eqn:E; try discriminate H
  end.

Section Fuel.
Variables (E : Env) (key : string) (fuel : nat).

(** The refetch after a challenge is counted. *)
Lemma pass_recaptcha_count fetcher url html num st res nr st' :
  pass_recaptcha E key fuel fetcher url html num st = (Returns (Some (res, nr)), st') →
  nr = num + 1.
Proof.
  unfold pass_recaptcha. intros H.
  bind_inv H. destruct a as [[solution token]|]; [|discriminate H].
  bind_inv H. destruct a; cbn [negb] in H; [|discriminate H].
  bind_inv H. destruct a as [res'|]; [|discriminate H].
  destruct (page_has_recaptcha (text res')); [discriminate H|].
  by injection H as _ <- _.
Qed.




End Fuel.

(** *** The three ways out of [proxy_is_working] *)

Lemma proxy_is_working_lists E p st :
  let r := proxy_is_working E p st in
  (r.1 = Returns true ∧ good_proxies r.2 = good_proxies st ++ [p]
   ∧ bad_proxies r.2 = bad_proxies st)
  ∨ (r.1 = Returns false ∧ good_proxies r.2 = good_proxies st
     ∧ bad_proxies r.2 = bad_proxies st ++ [p])
  ∨ (r.1 = Returns false ∧ good_proxies r.2 = good_proxies st
     ∧ bad_proxies r.2 = bad_proxies st).
Proof.
  unfold proxy_is_working. rewrite bind_unfold, Fetcher__init__fresh.
  set (f := mkFetcher _ _ _). set (st0 := set_sessions _ _).
  assert (∀ o st1, Fetcher_get E f IP_API_URL st0 = (o, st1) →
            good_proxies st1 = good_proxies st ∧ bad_proxies st1 = bad_proxies st
            ∧ ∃ r, o = Returns r) as Hget.
  { intros o st1. unfold Fetcher_get, Fetcher__request.
    change (requests_function (Py.lower "GET")) with true. cbv iota zeta.
    unfold try_except. rewrite bind_unfold. cbn [get_state].
    rewrite bind_unfold. unfold http_call.
    destruct (network E _ _) as [e|res]; [intros [= <- <-]; eauto|].
    destruct (status_code res =? 200); intros [= <- <-]; eauto. }
  rewrite bind_unfold.
  destruct (Fetcher_get E f IP_API_URL st0) as [o st1] eqn:Hrun.
  destruct (Hget o st1 eq_refl) as (Hg & Hb & r & ->).
  destruct r as [res|]; cbv beta iota.
  - destruct (Py.contains (text res) p).
    + left. rewrite !bind_unfold. cbn. by rewrite Hg, Hb.
    + right. right. cbn. done.
  - right. left. rewrite !bind_unfold. cbn. by rewrite Hg, Hb.
Qed.

(** *** The string primitives on sample inputs *)

Example lower_ex : Py.lower "Human Verification" = "human verification".
Proof. reflexivity. Qed.
Example int_ex : Py.int (Py.clean " 217,793 ") = Some 217793.
Proof. reflexivity. Qed.
Example int_bad : Py.int "12_" = None ∧ Py.int "" = None ∧ Py.int "-1_0" = Some (-10).
Proof. repeat split. Qed.
Example str_ex : Py.str 0 = "0" ∧ Py.str 42 = "42" ∧ Py.str (-7) = "-7".
Proof. repeat split. Qed.
Example dirname_ex : Py.dirname "results/found_domains.txt" = "results"
  ∧ Py.dirname "a/b/c.txt" = "a/b".
Proof. repeat split. Qed.
Example strip_ex : Py.strip "  shop.example.com
 " = "shop.example.com".
Proof. reflexivity. Qed.
Example redirect_script_ex : String.length REDIRECT_SCRIPT = 68%nat.
Proof. reflexivity. Qed.
Example page_has_recaptcha_ex :
  page_has_recaptcha Site.CAPTCHA = true ∧ page_has_recaptcha Site.MORE = false.
Proof. split; reflexivity. Qed.
Example page_domains_ex :
  page_domains (Site.table ["a.example.com"; " b.example.com "; "a.example.com"], [])
  = {["a.example.com"; "b.example.com"]}.
Proof. vm_compute. reflexivity. Qed.

(** ** Further properties of the script *)

(** *** Fetcher requests *)

(** The complete effect of one [_request] with a method of the library. *)
Lemma Fetcher__request_spec E self url method data hdrs st :
  requests_function (Py.lower method) = true →
  let req := request_sent self url method data hdrs st in
  let st1 := set_log (log st ++ [EvHttp req]) st in
  Fetcher__request E self url method data hdrs st
  = match network E (length (requests_of (log st))) req with
    | inl _ => (Returns None, st1)
    | inr res =>
        if status_code res =? 200
        then (Returns (Some res),
              set_heap (alter (λ jar, res_cookies res ∪ jar) (cookies self) (heap st1)) st1)
        else (Returns None, st1)
    end.
Proof.
  intros Hm. unfold Fetcher__request. rewrite Hm.
  unfold try_except. rewrite bind_unfold. cbn [get_state].
  rewrite bind_unfold. unfold http_call, request_sent.
  destruct (network E _ _) as [e|res]; [reflexivity|].
  destruct (status_code res =? 200); reflexivity.
Qed.

Lemma requests_of_snoc l r : requests_of (l ++ [EvHttp r]) = requests_of l ++ [r].
Proof. unfold requests_of. by rewrite omap_app. Qed.

(** X1. [Fetcher.get] and [Fetcher.post] always return to their caller,
    whatever the network does: they send exactly one request and return
    either a response, whose status is then 200, or [None]; with [None] the
    cookie jars are as before. *)
Theorem X1_fetcher_get_post_always_return E self url data st :
  (∃ r st', Fetcher_get E self url st = (Returns r, st')
            ∧ length (requests_of (log st')) = S (length (requests_of (log st)))
            ∧ match r with
              | Some res => status_code res = 200
              | None => heap st' = heap st
              end)
  ∧ (∃ r st', Fetcher_post E self url data st = (Returns r, st')
              ∧ length (requests_of (log st')) = S (length (requests_of (log st)))
              ∧ match r with
                | Some res => status_code res = 200
                | None => heap st' = heap st
                end).
Proof.
  assert (∀ method body hdrs,
            requests_function (Py.lower method) = true →
            ∃ r st', Fetcher__request E self url method body hdrs st = (Returns r, st')
              ∧ length (requests_of (log st')) = S (length (requests_of (log st)))
              ∧ match r with
                | Some res => status_code res = 200
                | None => heap st' = heap st
                end) as H.
  { intros method body hdrs Hm.
    rewrite (Fetcher__request_spec E self url method body hdrs st Hm). cbv zeta.
    destruct (network E _ _) as [e|res].
    - eexists _, _. split; [reflexivity|]. cbn.
      rewrite requests_of_snoc, length_app. cbn. split; [lia|done].
    - destruct (status_code res =? 200) eqn:Hs.
      + eexists _, _. split; [reflexivity|]. cbn.
        rewrite requests_of_snoc, length_app. cbn. split; lia.
      + eexists _, _. split; [reflexivity|]. cbn.
        rewrite requests_of_snoc, length_app. cbn. split; [lia|done]. }
  split; apply H; reflexivity.
Qed.

(** X2. What a Fetcher sends: the request is logged with the lower-cased
    method, the session's timeout, the content of its cookie jar at that
    moment, and its proxy, or no proxy at all when the Fetcher's proxy is
    [None] or the empty string; a header given for the call overrides the
    base header of the same name, and every other base header is sent. *)
Theorem X2_request_carries_session_settings E self url method data hdrs st :
  requests_function (Py.lower method) = true →
  ∃ req, log (Fetcher__request E self url method data hdrs st).2
         = log st ++ [EvHttp req]
    ∧ req_method req = Py.lower method
    ∧ req_url req = url
    ∧ req_timeout req = Some (timeout self)
    ∧ req_cookies req = jar_of st self
    ∧ req_proxies req = match proxy self with
                        | None | Some EmptyString => None
                        | Some p => Some p
                        end
    ∧ ∀ k, req_headers req !! k = match hdrs !! k with
                                  | Some v => Some v
                                  | None => REQUEST_HEADERS !! k
                                  end.
Proof.
  intros Hm. exists (request_sent self url method data hdrs st).
  rewrite (Fetcher__request_spec E self url method data hdrs st Hm). cbv zeta.
  split.
  { destruct (network E _ _) as [e|res]; [reflexivity|].
    destruct (status_code res =? 200); reflexivity. }
  repeat split.
  - cbn. by destruct (proxy self) as [[|c p]|].
  - intros k. change (req_headers _) with (hdrs ∪ REQUEST_HEADERS).
    generalize REQUEST_HEADERS. intros base.
    rewrite lookup_union. destruct (hdrs !! k), (base !! k); done.
Qed.

Lemma X2_witness :
  let E := Site.endless in
  let st := set_heap [{["sid" := "1"]}] initial_state in
  ∃ req, log (Fetcher__request E (mkFetcher (Some EmptyString) 0 5) (listing_url 1)
                "post" NoBody {["Accept" := "text/plain"]} st).2 = [EvHttp req]
    ∧ req_proxies req = None
    ∧ req_cookies req = {["sid" := "1"]}
    ∧ req_headers req !! "Accept" = Some "text/plain"
    ∧ req_headers req !! "Accept-Language" = Some "en-US,en;q=0.5".
Proof.
  intros E st.
  destruct (X2_request_carries_session_settings E (mkFetcher (Some EmptyString) 0 5)
              (listing_url 1) "post" NoBody {["Accept" := "text/plain"]} st)
    as (req & Hlog & _ & _ & _ & Hc & Hp & Hh); [reflexivity|].
  exists req. split; [exact Hlog|]. split; [exact Hp|]. split; [exact Hc|].
  split; [exact (Hh "Accept")|exact (Hh "Accept-Language")].
Defined.

(** X3. After a request answered with status 200, the session's jar maps
    every cookie name to the value the response set for it, and otherwise to
    the value it had before: cookies accumulate, the last answer wins. *)
Theorem X3_cookie_jar_last_write_wins E self url method data hdrs st res st' :
  (cookies self < length (heap st))%nat →
  Fetcher__request E self url method data hdrs st = (Returns (Some res), st') →
  ∀ k, jar_of st' self !! k = match res_cookies res !! k with
                              | Some v => Some v
                              | None => jar_of st self !! k
                              end.
Proof.
  intros Hlt Hrun k.
  pose proof (Fetcher__request_heap E self url method data hdrs st) as H.
  cbv zeta in H. rewrite Hrun in H. cbn in H. destruct H as (_ & _ & Hheap).
  unfold jar_of. rewrite Hheap, list_lookup_alter_eq.
  destruct (lookup_lt_is_Some_2 _ _ Hlt) as [jar Hjar]. rewrite Hjar. cbn.
  rewrite lookup_union. destruct (res_cookies res !! k), (jar !! k); done.
Qed.

Lemma X3_witness :
  let self := mkFetcher (Some Site.PROXY) 0 TIMEOUT in
  let st := set_heap [{["sid" := "1"]}] initial_state in
  let E := Site.env (λ _ _, Site.ok_cookie Site.MORE) [] in
  let st' := (Fetcher_get E self (listing_url 1) st).2 in
  jar_of st' self !! "s2_uGoo" = Some "1" ∧ jar_of st' self !! "sid" = Some "1".
Proof.
  intros self st E st'.
  pose proof (X3_cookie_jar_last_write_wins E self (listing_url 1) "GET" NoBody ∅ st
                (mkResponse 200 Site.MORE {["s2_uGoo" := "1"]} EmptyString) st') as H.
  split.
  - apply (H ltac:(cbn; lia) eq_refl "s2_uGoo").
  - apply (H ltac:(cbn; lia) eq_refl "sid").
Defined.

(** *** Proxy verification *)

(** X4. [proxy_is_working] always returns a boolean. When it returns [True]
    it has appended the proxy to [good_proxies] and left [bad_proxies]
    alone; when it returns [False] it has left [good_proxies] alone and
    appended the proxy to [bad_proxies] or to no list. So no call puts a
    proxy on both lists, and a proxy put on the bad list is never accepted. *)
Theorem X4_proxy_is_working_verdicts E p st :
  ∃ b st', proxy_is_working E p st = (Returns b, st')
    ∧ if b
      then good_proxies st' = good_proxies st ++ [p]
           ∧ bad_proxies st' = bad_proxies st
      else good_proxies st' = good_proxies st
           ∧ (bad_proxies st' = bad_proxies st ++ [p]
              ∨ bad_proxies st' = bad_proxies st).
Proof.
  pose proof (proxy_is_working_lists E p st) as H. cbv zeta in H.
  destruct (proxy_is_working E p st) as [o st']. cbn in H.
  destruct H as [(-> & Hg & Hb)|[(-> & Hg & Hb)|(-> & Hg & Hb)]].
  - exists true, st'. done.
  - exists false, st'. split; [done|]. split; [done|by left].
  - exists false, st'. split; [done|]. split; [done|by right].
Qed.

(** *** Termination of the two bounded loops *)





(** *** Page queries *)

(** X10. [has_next_page] never touches the state. It returns [None] exactly
    when the page has no element of class [sites_tbl_end] or that element
    has no following [b] sibling; when both exist, it returns whether the
    first number is below the second if both texts, commas and dots
    removed, are integers, and raises [ValueError] otherwise. *)
Theorem X10_has_next_page_outcomes doc st :
  (has_next_page doc st).2 = st
  ∧ ((has_next_page doc st).1 = Returns None
     ↔ Soup.find None [("class", "sites_tbl_end")] doc = None
       ∨ ∃ cur, Soup.find None [("class", "sites_tbl_end")] doc = Some cur
                ∧ Soup.find_next_sibling "b" cur = None)
  ∧ ∀ cur tot,
      Soup.find None [("class", "sites_tbl_end")] doc = Some cur →
      Soup.find_next_sibling "b" cur = Some tot →
      (has_next_page doc st).1
      = match Py.int (Py.clean (Soup.text_of cur.1)),
              Py.int (Py.clean (Soup.text_of tot.1)) with
        | Some a, Some b => Returns (Some (a <? b))
        | _, _ => Raises (ValueError "int")
        end.
Proof.
  unfold has_next_page.
  destruct (Soup.find None _ doc) as [cur|] eqn:Hc.
  2:{ split; [done|]. split; [|done]. split; [by left|done]. }
  destruct (Soup.find_next_sibling "b" cur) as [tot|] eqn:Ht.
  2:{ split; [done|]. split; [|intros c t [= <-] H; by rewrite Ht in H].
      split; [|done]. right. by exists cur. }
  split; [|split].
  - destruct (Py.int _); [destruct (Py.int _)|]; done.
  - split.
    + destruct (Py.int _); [destruct (Py.int _)|]; done.
    + intros [?|(c & [= <-] & H)]; [done|]. by rewrite Ht in H.
  - intros c t [= <-] H. rewrite Ht in H. injection H as <-.
    destruct (Py.int _); [destruct (Py.int _)|]; done.
Qed.

Lemma X10_witness :
  (has_next_page (Site.parser Site.MORE) initial_state).1 = Returns (Some true)
  ∧ (has_next_page [Site.counter "1.650" "2_000"] initial_state).1 = Returns (Some true)
  ∧ (has_next_page [Site.counter "1,650" "many"] initial_state).1
    = Raises (ValueError "int").
Proof.
  split; [|split].
  - destruct (X10_has_next_page_outcomes (Site.parser Site.MORE) initial_state)
      as (_ & _ & H).
    erewrite H; [|vm_compute; reflexivity..]. reflexivity.
  - destruct (X10_has_next_page_outcomes [Site.counter "1.650" "2_000"] initial_state)
      as (_ & _ & H).
    erewrite H; [|vm_compute; reflexivity..]. reflexivity.
  - destruct (X10_has_next_page_outcomes [Site.counter "1,650" "many"] initial_state)
      as (_ & _ & H).
    erewrite H; [|vm_compute; reflexivity..]. reflexivity.
Defined.

Lemma string_app_cons c (s t : string) : String c s +:+ t = String c (s +:+ t).
Proof. reflexivity. Qed.

Lemma lower_app (a b : string) : Py.lower (a +:+ b) = Py.lower a +:+ Py.lower b.
Proof.
  induction a as [|c a IH]; [reflexivity|].
  rewrite string_app_cons. cbn [Py.lower]. by rewrite IH, string_app_cons.
Qed.

Lemma prefix_app (s t : string) : String.prefix s (s +:+ t) = true.
Proof.
  induction s as [|c s IH]; [by destruct t|].
  rewrite string_app_cons. cbn [String.prefix].
  destruct (ascii_dec c c); [exact IH|done].
Qed.

Lemma contains_unfold sub s :
  Py.contains sub s
  = if String.prefix sub s then true
    else match s with
         | EmptyString => false
         | String _ s' => Py.contains sub s'
         end.
Proof. by destruct s. Qed.

Lemma contains_app sub (a b : string) : Py.contains sub (a +:+ sub +:+ b) = true.
Proof.
  induction a as [|c a IH].
  - rewrite contains_unfold.
    change (EmptyString +:+ sub +:+ b) with (sub +:+ b). by rewrite prefix_app.
  - rewrite contains_unfold, string_app_cons.
    destruct (String.prefix _ _); [done|exact IH].
Qed.

(** X11. Challenge detection is insensitive to letter case and position: a
    page that contains, anywhere, a phrase whose lower-cased form is
    [human verification] or [human being] is reported as a challenge. *)
Theorem X11_challenge_phrase_detected (before phrase after : string) :
  Py.lower phrase = "human verification" ∨ Py.lower phrase = "human being" →
  page_has_recaptcha (before +:+ phrase +:+ after) = true.
Proof.
  intros H. unfold page_has_recaptcha. rewrite !lower_app.
  destruct H as [-> | ->]; rewrite contains_app; [done|].
  by rewrite orb_true_r.
Qed.

Lemma X11_witness :
  page_has_recaptcha ("<h1>" +:+ "HUMAN Being" +:+ "</h1>") = true.
Proof.
  apply (X11_challenge_phrase_detected "<h1>" "HUMAN Being" "</h1>").
  right. reflexivity.
Defined.

(** *** Challenges *)

(** X12. A challenge page that does not expose the reCAPTCHA parameters
    makes the engine return the current cursor straight after the page
    fetch: the oracle is not contacted and nothing else is sent. *)
Theorem X12_challenge_without_parameters_rotates
    E key fuel n fetcher num page st res st1 :
  num < MAX_REQUESTS_PER_IP →
  Fetcher_get E fetcher (listing_url page) st = (Returns (Some res), st1) →
  page_has_recaptcha (text res) = true →
  recaptcha_search E (text res) = None →
  crawl_loop E key fuel (S n) fetcher num page st = (Returns (Some page), st1).
Proof.
  intros Hlt Hget Hcap Hsearch. cbn [crawl_loop].
  destruct (num <? MAX_REQUESTS_PER_IP) eqn:Hb; [|lia].
  rewrite (bind_returns _ _ _ _ _ Hget). cbv beta iota. rewrite Hcap.
  unfold pass_recaptcha, solve_recaptcha. rewrite Hsearch.
  rewrite !bind_unfold. reflexivity.
Qed.

Lemma X12_witness :
  let E := Site.env (Site.net (λ _, Site.ok "Human Verification") Site.READY) [] in
  let f := mkFetcher (Some Site.PROXY) 0 TIMEOUT in
  let st := set_heap [∅] initial_state in
  (crawl_loop E "secret123" 5 1 f 0 7 st).1 = Returns (Some 7)
  ∧ length (requests_of (log (crawl_loop E "secret123" 5 1 f 0 7 st).2)) = 1%nat.
Proof.
  intros E f st.
  rewrite (X12_challenge_without_parameters_rotates E "secret123" 5 0 f 0 7 st
             (mkResponse 200 "Human Verification" ∅ EmptyString)
             (Fetcher_get E f (listing_url 7) st).2);
    [split; reflexivity|unfold MAX_REQUESTS_PER_IP; lia|reflexivity..].
Defined.

(** X13. When the oracle answers the task creation with a status other than
    200, or with a JSON object whose [taskId] is missing or falsy,
    [solve_recaptcha] returns [None] after that single request, which is
    sent directly (not through a proxy, without cookies): there is no poll
    and no wait. *)
Theorem X13_refused_task_is_not_polled E key fuel url html site_key action st res :
  recaptcha_search E html = Some (site_key, action) →
  (∀ r, network E (length (requests_of (log st))) r = inr res) →
  status_code res ≠ 200
  ∨ (∃ fields, json_loads E (text res) = Some (JObj fields)
               ∧ truthy (default JNull (assoc "taskId" fields)) = false) →
  ∃ req, solve_recaptcha E key fuel url html st
         = (Returns None, set_log (log st ++ [EvHttp req]) st)
    ∧ req_url req = "https://api.anti-captcha.com/createTask"
    ∧ req_proxies req = None
    ∧ req_cookies req = ∅.
Proof.
  intros Hsearch Hnet Hres. eexists. split; [|split; [|split]].
  - unfold solve_recaptcha. rewrite Hsearch.
    unfold _create_anti_captcha_task, requests_post_json.
    rewrite !bind_unfold. unfold http_call. rewrite Hnet.
    destruct Hres as [Hs|(fields & Hj & Ht)].
    + destruct (status_code res =? 200) eqn:Hb; [lia|]. reflexivity.
    + destruct (status_code res =? 200); [|reflexivity]. cbn [negb].
      rewrite !bind_unfold. unfold res_json. rewrite Hj.
      cbn [mret M_ret ret]. unfold dict_get. rewrite !bind_unfold.
      cbn [mret M_ret ret]. rewrite Ht. reflexivity.
  - reflexivity.
  - reflexivity.
  - reflexivity.
Qed.

Lemma X13_witness :
  let E := Site.env (λ _ _, inr (mkResponse 503 "busy" ∅ EmptyString)) [] in
  (solve_recaptcha E "secret123" 5 (listing_url 1) Site.CAPTCHA initial_state).1
  = Returns None
  ∧ length (log (solve_recaptcha E "secret123" 5 (listing_url 1) Site.CAPTCHA
                   initial_state).2) = 1%nat.
Proof.
  intros E.
  destruct (X13_refused_task_is_not_polled E "secret123" 5 (listing_url 1)
              Site.CAPTCHA "SITEKEY123" "submit" initial_state
              (mkResponse 503 "busy" ∅ EmptyString))
    as (req & -> & _); [reflexivity|reflexivity|left; cbn; lia|].
  split; reflexivity.
Defined.

(** X14. [post_solution_and_update_cookies] always returns a boolean, and
    it returns [True] only if the POST came back with status 200, the body
    is exactly the redirect script, and the session's jar then holds the
    [s2_uGoo] cookie. *)
Theorem X14_solution_accepted_only_with_script_and_cookie
    E url token solution fetcher st :
  ∃ b st', post_solution_and_update_cookies E url token solution fetcher st
           = (Returns b, st')
    ∧ if b
      then ∃ res, Fetcher_post E fetcher url
                    [("g_recaptcha_loaded", JStr "yes"); ("captcha_token", token);
                     ("g_recaptcha_response", solution)] st
                  = (Returns (Some res), st')
                  ∧ status_code res = 200
                  ∧ text res = REDIRECT_SCRIPT
                  ∧ is_Some (jar_of st' fetcher !! "s2_uGoo")
      else True.
Proof.
  unfold post_solution_and_update_cookies. cbv zeta.
  set (data := [("g_recaptcha_loaded", JStr "yes"); ("captcha_token", token);
                ("g_recaptcha_response", solution)]).
  destruct (Fetcher_post_returns E fetcher url data st) as (r & st1 & Hpost).
  assert (∀ res, r = Some res → status_code res = 200) as Hstatus.
  { intros res ->. unfold Fetcher_post in Hpost.
    pose proof (Fetcher__request_heap E fetcher url "post" (FormData data)
      (list_to_map [("Content-Type", "application/x-www-form-urlencoded");
                    ("Host", "myip.ms"); ("Origin", "myip.ms"); ("Referer", url)])
      st) as H.
    cbv zeta in H. rewrite Hpost in H. by destruct H as (? & _). }
  rewrite (bind_returns _ _ _ _ _ Hpost).
  destruct r as [res|]; [|by exists false, st1].
  rewrite bind_unfold. cbn [get_state].
  destruct (String.eqb (text res) REDIRECT_SCRIPT) eqn:Hbody;
    [|by exists false, st1].
  destruct (bool_decide _) eqn:Hc; [|by exists false, st1].
  exists true, st1. split; [reflexivity|]. exists res.
  apply String.eqb_eq in Hbody. apply bool_decide_eq_true in Hc.
  apply elem_of_dom in Hc. split; [done|]. split; [by apply Hstatus|done].
Qed.

(** *** What a run does to the global variables *)

Lemma grows_refl st : grows st st.
Proof.
  repeat split; try done. exists []. split; [by rewrite app_nil_r|].
  intros x Hx. by apply not_elem_of_nil in Hx.
Qed.

Lemma grows_trans st1 st2 st3 : grows st1 st2 → grows st2 st3 → grows st1 st3.
Proof.
  intros (Hg1 & Hb1 & Hd1 & l1 & Hf1 & Hl1) (Hg2 & Hb2 & Hd2 & l2 & Hf2 & Hl2).
  split; [by etrans|]. split; [by etrans|]. split; [by etrans|].
  exists (l1 ++ l2). split; [by rewrite Hf2, Hf1, app_assoc|].
  intros x [Hx|Hx]%elem_of_app; [|by apply Hl2]. apply Hd2, Hl1, Hx.
Qed.

Lemma grows_frame st0 st st' :
  good_proxies st' = good_proxies st → bad_proxies st' = bad_proxies st →
  domains st' = domains st → results_file st' = results_file st →
  grows st0 st → grows st0 st'.
Proof.
  intros Hg Hb Hd Hf H. eapply grows_trans; [exact H|].
  split; [by rewrite Hg|]. split; [by rewrite Hb|]. split; [by rewrite Hd|].
  exists []. split; [by rewrite Hf, app_nil_r|].
  intros x Hx. by apply not_elem_of_nil in Hx.
Qed.

Lemma grows_good_append st0 st p :
  grows st0 st → grows st0 (set_good_proxies (good_proxies st ++ [p]) st).
Proof.
  intros H. eapply grows_trans; [exact H|].
  split; [by apply prefix_app_r|]. split; [done|]. split; [done|].
  exists []. split; [by rewrite app_nil_r|].
  intros x Hx. by apply not_elem_of_nil in Hx.
Qed.

Lemma grows_bad_append st0 st p :
  grows st0 st → grows st0 (set_bad_proxies (bad_proxies st ++ [p]) st).
Proof.
  intros H. eapply grows_trans; [exact H|].
  split; [done|]. split; [by apply prefix_app_r|]. split; [done|].
  exists []. split; [by rewrite app_nil_r|].
  intros x Hx. by apply not_elem_of_nil in Hx.
Qed.

Create HintDb grows discriminated.

Ltac grows_step :=
  first
    [ solve [auto with grows]
    | apply preserves_ret
    | apply preserves_raise
    | apply preserves_out_of_fuel
    | apply preserves_get_state
    | apply preserves_bind; [|intros ?]
    | apply preserves_try_except; [|intros ?]
    | apply preserves_modify; intros ? ?;
      first [ apply grows_good_append; assumption
            | apply grows_bad_append; assumption
            | eapply grows_frame; [| | | |eassumption]; reflexivity ]
    | progress cbv zeta
    | match goal with
      | |- preserves _ (match ?x with _ => _ end) => destruct x
      end ].
Ltac grows_all := repeat grows_step.

Section Grows.
Variables (E : Env) (key : string) (fuel : nat) (st0 : State).

Lemma emit_grows e : preserves (grows st0) (emit e).
Proof. unfold emit. grows_all. Qed.
Hint Resolve emit_grows : grows.

Lemma sleep_grows s : preserves (grows st0) (sleep s).
Proof. unfold sleep. grows_all. Qed.
Hint Resolve sleep_grows : grows.

Lemma http_call_grows r : preserves (grows st0) (http_call E r).
Proof.
  intros st H. unfold http_call.
  destruct (network E _ r); simpl;
    (eapply grows_frame; [| | | |exact H]; reflexivity).
Qed.
Hint Resolve http_call_grows : grows.

Lemma Fetcher__init__grows p c t : preserves (grows st0) (Fetcher__init__ p c t).
Proof. unfold Fetcher__init__, new_dict. grows_all. Qed.
Hint Resolve Fetcher__init__grows : grows.

Lemma Fetcher__request_grows self url method data hdrs :
  preserves (grows st0) (Fetcher__request E self url method data hdrs).
Proof. unfold Fetcher__request. grows_all. Qed.
Hint Resolve Fetcher__request_grows : grows.

Lemma Fetcher_get_grows self url : preserves (grows st0) (Fetcher_get E self url).
Proof. unfold Fetcher_get. grows_all. Qed.
Lemma Fetcher_post_grows self url data :
  preserves (grows st0) (Fetcher_post E self url data).
Proof. unfold Fetcher_post. grows_all. Qed.
Hint Resolve Fetcher_get_grows Fetcher_post_grows : grows.

Lemma read_proxies_from_file_grows :
  preserves (grows st0) (read_proxies_from_file E).
Proof. unfold read_proxies_from_file. grows_all. Qed.
Hint Resolve read_proxies_from_file_grows : grows.

(** The record step is the one place where [domains] and the results file
    change, and it puts into the file only what it has put into [domains]. *)
Lemma collect_domains_grows table : preserves (grows st0) (collect_domains table).
Proof.
  intros st H. eapply grows_trans; [exact H|].
  destruct (collect_domains_spec table st) as (st' & Hrun & Hd & Hf & _).
  assert (good_proxies st' = good_proxies st ∧ bad_proxies st' = bad_proxies st)
    as [Hg Hb].
  { revert Hrun. unfold collect_domains, write_domains_to_file, ensure_directories.
    change (Py.contains "/" RESULTS_FILE) with true. cbv iota.
    rewrite bind_unfold. cbn [modify]. rewrite !bind_unfold. cbn [get_state].
    destruct (bool_decide _); intros [= <-]; done. }
  rewrite Hrun. cbn [snd].
  split; [by rewrite Hg|]. split; [by rewrite Hb|].
  split; [rewrite Hd; set_solver|].
  exists (elements (page_domains table)). split; [done|].
  intros x Hx. rewrite Hd. apply elem_of_elements in Hx. set_solver.
Qed.
Hint Resolve collect_domains_grows : grows.

Lemma proxy_is_working_grows p : preserves (grows st0) (proxy_is_working E p).
Proof. unfold proxy_is_working. grows_all. Qed.
Hint Resolve proxy_is_working_grows : grows.

Lemma pick_proxy_next_grows proxies :
  preserves (grows st0) (pick_proxy_next E proxies).
Proof. unfold pick_proxy_next, random_choice_range. grows_all. Qed.
Hint Resolve pick_proxy_next_grows : grows.

Lemma _create_anti_captcha_task_grows url site_key action :
  preserves (grows st0) (_create_anti_captcha_task E key url site_key action).
Proof.
  unfold _create_anti_captcha_task, requests_post_json, res_json, dict_get.
  grows_all.
Qed.

Lemma _get_anti_captcha_solution_grows task_id :
  preserves (grows st0) (_get_anti_captcha_solution E key task_id).
Proof.
  unfold _get_anti_captcha_solution, requests_post_json, res_json, subscript.
  grows_all.
Qed.
Hint Resolve _create_anti_captcha_task_grows _get_anti_captcha_solution_grows : grows.

Lemma poll_solution_grows n task_id solution times_waited :
  preserves (grows st0) (poll_solution E key n task_id solution times_waited).
Proof.
  revert solution. induction n as [|n IH]; intros solution; cbn [poll_solution];
    grows_all.
Qed.
Hint Resolve poll_solution_grows : grows.

Lemma solve_recaptcha_grows url html :
  preserves (grows st0) (solve_recaptcha E key fuel url html).
Proof. unfold solve_recaptcha. grows_all. Qed.

Lemma has_next_page_grows doc : preserves (grows st0) (has_next_page doc).
Proof. unfold has_next_page. grows_all. Qed.

Lemma post_solution_and_update_cookies_grows url token solution fetcher :
  preserves (grows st0)
    (post_solution_and_update_cookies E url token solution fetcher).
Proof. unfold post_solution_and_update_cookies. grows_all. Qed.
Hint Resolve solve_recaptcha_grows has_next_page_grows
  post_solution_and_update_cookies_grows : grows.

Lemma pass_recaptcha_grows fetcher url html num :
  preserves (grows st0) (pass_recaptcha E key fuel fetcher url html num).
Proof. unfold pass_recaptcha. grows_all. Qed.
Hint Resolve pass_recaptcha_grows : grows.

Lemma crawl_loop_grows n fetcher num page :
  preserves (grows st0) (crawl_loop E key fuel n fetcher num page).
Proof.
  revert num page. induction n as [|n IH]; intros num page; cbn [crawl_loop];
    grows_all.
Qed.
Hint Resolve crawl_loop_grows : grows.

Lemma do_some_work_grows p page :
  preserves (grows st0)
    (do_some_work_until_finished_or_proxy_dead E key fuel p page).
Proof. unfold do_some_work_until_finished_or_proxy_dead. grows_all. Qed.
Hint Resolve do_some_work_grows : grows.

Lemma main_loop_grows n proxies page :
  preserves (grows st0) (main_loop E key fuel n proxies page).
Proof.
  revert proxies page. induction n as [|n IH]; intros proxies page;
    cbn [main_loop]; grows_all.
Qed.
Hint Resolve main_loop_grows : grows.

Lemma main_grows : preserves (grows st0) (main E key fuel).
Proof. unfold main. grows_all. Qed.

End Grows.

(** X9. Whatever the outside world does and however the run ends, a run of
    the script only appends to [good_proxies], to [bad_proxies] and to the
    results file, only adds to [domains], and every line it appends to the
    results file is a member of [domains] at the end. *)
Theorem X9_run_only_appends_and_file_lines_are_in_domains E fuel st :
  let st' := (script E fuel st).2 in
  good_proxies st `prefix_of` good_proxies st'
  ∧ bad_proxies st `prefix_of` bad_proxies st'
  ∧ domains st ⊆ domains st'
  ∧ ∃ lines, results_file st' = results_file st ++ lines
             ∧ ∀ x, x ∈ lines → x ∈ domains st'.
Proof.
  assert (preserves (grows st) (script E fuel)) as H.
  { unfold script. destruct (environ E !! _); [apply main_grows|apply preserves_raise]. }
  exact (H st (grows_refl st)).
Qed.

(** *** Page fetches of one engine run *)

Lemma fetch_count_snoc st r :
  fetch_count (set_log (log st ++ [EvHttp r]) st)
  = (fetch_count st + if is_page_fetch r then 1 else 0)%nat.
Proof.
  unfold fetch_count, page_fetches. cbn [log set_log].
  rewrite requests_of_snoc, filter_app, length_app. f_equal.
  rewrite filter_cons, filter_nil. destruct (is_page_fetch r); by case_decide.
Qed.

Lemma fetch_count_event st e :
  (∀ r, e ≠ EvHttp r) →
  fetch_count (set_log (log st ++ [e]) st) = fetch_count st.
Proof.
  intros He. unfold fetch_count. cbn [log set_log]. unfold requests_of.
  rewrite omap_app. destruct e; cbn; rewrite ?app_nil_r; try done.
  by destruct (He r).
Qed.

Create HintDb nofetch discriminated.

Ltac mred := cbn [snd fst mret M_ret ret raise out_of_fuel negb] in *.

Ltac nofetch_step :=
  first
    [ solve [auto with nofetch]
    | apply preserves_ret
    | apply preserves_raise
    | apply preserves_out_of_fuel
    | apply preserves_get_state
    | apply preserves_bind; [|intros ?]
    | apply preserves_try_except; [|intros ?]
    | apply preserves_modify; intros ? ?; assumption
    | progress cbv zeta
    | match goal with
      | |- preserves _ (match ?x with _ => _ end) => destruct x
      end ].
Ltac nofetch := repeat nofetch_step.

Section PageFetches.
Variables (E : Env) (key : string) (fuel : nat).

Section NoFetch.
Variable c : nat.
Local Abbreviation bounded := (fetches_bounded c).

Lemma emit_nofetch e : (∀ r, e ≠ EvHttp r) → preserves bounded (emit e).
Proof.
  intros He st H. unfold emit, modify, fetches_bounded. cbn [snd].
  by rewrite fetch_count_event.
Qed.

Lemma sleep_nofetch s : preserves bounded (sleep s).
Proof. apply emit_nofetch. done. Qed.
Hint Resolve sleep_nofetch : nofetch.

Lemma http_call_nofetch r : is_page_fetch r = false → preserves bounded (http_call E r).
Proof.
  intros Hr st H. unfold http_call, fetches_bounded in *.
  destruct (network E _ r); cbn [snd]; rewrite fetch_count_snoc, Hr; lia.
Qed.

Lemma Fetcher__init__nofetch p t : preserves bounded (Fetcher__init__ p None t).
Proof. intros st H. rewrite Fetcher__init__fresh. exact H. Qed.
Hint Resolve Fetcher__init__nofetch : nofetch.

Lemma Fetcher__request_nofetch self url method data hdrs :
  requests_function (Py.lower method) = true →
  is_page_fetch (request_sent self url method data hdrs initial_state) = false →
  preserves bounded (Fetcher__request E self url method data hdrs).
Proof.
  intros Hm Hr st H.
  rewrite (Fetcher__request_spec E self url method data hdrs st Hm). cbv zeta.
  assert (is_page_fetch (request_sent self url method data hdrs st) = false) as Hr'
    by exact Hr.
  unfold fetches_bounded in *.
  destruct (network E _ _) as [e|res]; [|destruct (status_code res =? 200)];
    cbn [snd]; try (rewrite fetch_count_snoc, Hr'; lia).
  change (fetch_count (set_heap ?h ?s)) with (fetch_count s).
  rewrite fetch_count_snoc, Hr'. lia.
Qed.

Lemma Fetcher_post_nofetch self url data :
  preserves bounded (Fetcher_post E self url data).
Proof. by apply Fetcher__request_nofetch. Qed.

Lemma Fetcher_get_ip_nofetch self : preserves bounded (Fetcher_get E self IP_API_URL).
Proof. by apply Fetcher__request_nofetch. Qed.
Hint Resolve Fetcher_post_nofetch Fetcher_get_ip_nofetch : nofetch.

Lemma requests_post_json_nofetch url doc :
  preserves bounded (requests_post_json E url doc).
Proof. by apply http_call_nofetch. Qed.
Hint Resolve requests_post_json_nofetch : nofetch.

Lemma collect_domains_nofetch table : preserves bounded (collect_domains table).
Proof.
  intros st H. destruct (collect_domains_spec table st) as (st' & -> & _ & _ & _ & _ & Hreq).
  unfold fetches_bounded, fetch_count in *. cbn [snd]. by rewrite Hreq.
Qed.
Hint Resolve collect_domains_nofetch : nofetch.

Lemma proxy_is_working_nofetch p : preserves bounded (proxy_is_working E p).
Proof. unfold proxy_is_working. nofetch. Qed.
Hint Resolve proxy_is_working_nofetch : nofetch.

Lemma _create_anti_captcha_task_nofetch url site_key action :
  preserves bounded (_create_anti_captcha_task E key url site_key action).
Proof. unfold _create_anti_captcha_task, res_json, dict_get. nofetch. Qed.

Lemma _get_anti_captcha_solution_nofetch task_id :
  preserves bounded (_get_anti_captcha_solution E key task_id).
Proof. unfold _get_anti_captcha_solution, res_json, subscript. nofetch. Qed.
Hint Resolve _create_anti_captcha_task_nofetch _get_anti_captcha_solution_nofetch
  : nofetch.

Lemma poll_solution_nofetch n task_id solution times_waited :
  preserves bounded (poll_solution E key n task_id solution times_waited).
Proof.
  revert solution. induction n as [|n IH]; intros solution; cbn [poll_solution];
    nofetch.
Qed.
Hint Resolve poll_solution_nofetch : nofetch.

Lemma solve_recaptcha_nofetch url html :
  preserves bounded (solve_recaptcha E key fuel url html).
Proof. unfold solve_recaptcha. nofetch. Qed.

Lemma has_next_page_nofetch doc : preserves bounded (has_next_page doc).
Proof. unfold has_next_page. nofetch. Qed.

Lemma post_solution_and_update_cookies_nofetch url token solution fetcher :
  preserves bounded (post_solution_and_update_cookies E url token solution fetcher).
Proof. unfold post_solution_and_update_cookies. nofetch. Qed.

End NoFetch.

(** In the form used below: these functions fetch no page. *)
Lemma no_fetch {A} (m : M A) st :
  (∀ c, preserves (fetches_bounded c) m) →
  (fetch_count (m st).2 ≤ fetch_count st)%nat.
Proof. intros H. apply (H (fetch_count st) st). unfold fetches_bounded. lia. Qed.

Lemma Fetcher_get_fetch self url st :
  (fetch_count (Fetcher_get E self url st).2 ≤ fetch_count st + 1)%nat.
Proof.
  unfold Fetcher_get.
  rewrite (Fetcher__request_spec E self url "GET" NoBody ∅ st eq_refl). cbv zeta.
  destruct (network E _ _) as [e|res]; [|destruct (status_code res =? 200)];
    cbn [snd]; try change (fetch_count (set_heap ?h ?s)) with (fetch_count s);
    rewrite fetch_count_snoc; destruct (is_page_fetch _); lia.
Qed.

Lemma pass_recaptcha_fetch fetcher url html num st :
  (fetch_count (pass_recaptcha E key fuel fetcher url html num st).2
   ≤ fetch_count st + 1)%nat.
Proof.
  unfold pass_recaptcha. rewrite bind_unfold.
  pose proof (no_fetch (solve_recaptcha E key fuel url html) st
                (λ c, solve_recaptcha_nofetch c url html)) as H1.
  destruct (solve_recaptcha E key fuel url html st) as [[[[solution token]|]| e |] st1];
    mred; try lia.
  rewrite bind_unfold.
  pose proof (no_fetch (post_solution_and_update_cookies E url token solution fetcher)
                st1 (λ c, post_solution_and_update_cookies_nofetch c url token
                            solution fetcher)) as H2.
  destruct (post_solution_and_update_cookies E url token solution fetcher st1)
    as [[[|]| e |] st2]; mred; try lia.
  rewrite bind_unfold.
  pose proof (Fetcher_get_fetch fetcher url st2) as H3.
  destruct (Fetcher_get E fetcher url st2) as [[[res|]| e |] st3];
    mred; try lia.
  destruct (page_has_recaptcha (text res)); mred; lia.
Qed.

Lemma crawl_loop_fetch n fetcher num page st :
  0 ≤ num →
  (fetch_count (crawl_loop E key fuel n fetcher num page st).2
   ≤ fetch_count st + Z.to_nat (MAX_REQUESTS_PER_IP + 1 - num))%nat.
Proof.
  revert num page st. induction n as [|n IH]; intros num page st Hnum.
  - cbn [crawl_loop]. destruct (num <? MAX_REQUESTS_PER_IP); mred; lia.
  - cbn [crawl_loop]. destruct (num <? MAX_REQUESTS_PER_IP) eqn:Hb; [|mred; lia].
    apply Z.ltb_lt in Hb. unfold MAX_REQUESTS_PER_IP in *.
    rewrite bind_unfold.
    pose proof (Fetcher_get_fetch fetcher (listing_url page) st) as H1.
    destruct (Fetcher_get E fetcher (listing_url page) st) as [[[res|]| e |] st1];
      mred; try lia.
    cbv zeta. rewrite bind_unfold.
    assert (∃ o st2,
              (if page_has_recaptcha (text res)
               then pass_recaptcha E key fuel fetcher (listing_url page) (text res)
                      (num + 1)
               else mret (Some (res, num + 1))) st1 = (o, st2)
              ∧ match o with
                | Returns (Some (_, nr)) =>
                    (fetch_count st2 + Z.to_nat (21 - nr)
                     ≤ fetch_count st + Z.to_nat (21 - num))%nat ∧ 0 ≤ nr
                | _ => (fetch_count st2 ≤ fetch_count st + 2)%nat
                end) as (o & st2 & -> & Ho).
    { destruct (page_has_recaptcha (text res)).
      - pose proof (pass_recaptcha_fetch fetcher (listing_url page) (text res)
                      (num + 1) st1) as H2.
        destruct (pass_recaptcha E key fuel fetcher (listing_url page) (text res)
                    (num + 1) st1) as [o st2] eqn:Hp.
        exists o, st2. split; [done|]. cbn [snd] in H2.
        destruct o as [[[res' nr]|]| e |]; try lia.
        apply pass_recaptcha_count in Hp. lia.
      - exists (Returns (Some (res, num + 1))), st1. split; [done|]. lia. }
    destruct o as [[[res' nr]|]| e |]; mred; try lia.
    destruct Ho as [Ho Hnr].
    destruct (Soup.find _ _ _) as [table|]; mred; [|lia].
    rewrite bind_unfold.
    pose proof (no_fetch (collect_domains table) st2
                  (λ c, collect_domains_nofetch c table)) as H3.
    destruct (collect_domains table st2) as [[[]| e |] st3]; mred; try lia.
    rewrite bind_unfold.
    pose proof (no_fetch (sleep 5) st3 (λ c, sleep_nofetch c 5)) as H4.
    destruct (sleep 5 st3) as [[[]| e |] st4]; mred; try lia.
    rewrite bind_unfold.
    pose proof (no_fetch (has_next_page (html_parser E (text res'))) st4
                  (λ c, has_next_page_nofetch c _)) as H5.
    destruct (has_next_page (html_parser E (text res')) st4) as [[[[|]|]| e |] st5];
      mred; try lia.
    specialize (IH nr (page + 1) st5 Hnr). lia.
Qed.

End PageFetches.

(** X7. Whatever the site, the oracle and the proxy do, one call of
    [do_some_work_until_finished_or_proxy_dead] fetches a listing page at
    most [MAX_REQUESTS_PER_IP + 1 = 21] times. *)
Theorem X7_at_most_21_page_fetches_per_proxy E key fuel p page st :
  (fetch_count (do_some_work_until_finished_or_proxy_dead E key fuel p page st).2
   ≤ fetch_count st + 21)%nat.
Proof.
  unfold do_some_work_until_finished_or_proxy_dead. rewrite bind_unfold.
  pose proof (no_fetch (proxy_is_working E p) st
                (λ c, proxy_is_working_nofetch E c p)) as H1.
  destruct (proxy_is_working E p st) as [[[|]| e |] st1]; mred; try lia.
  rewrite bind_unfold, Fetcher__init__fresh.
  set (st2 := set_sessions _ _).
  pose proof (crawl_loop_fetch E key fuel (Z.to_nat MAX_REQUESTS_PER_IP)
                (mkFetcher (Some p) (length (heap st1)) TIMEOUT) 0 page st2
                ltac:(lia)) as H2.
  change (fetch_count st2) with (fetch_count st1) in H2.
  change (Z.to_nat (MAX_REQUESTS_PER_IP + 1 - 0)) with 21%nat in H2. lia.
Qed.

(** *** The cursor *)

Lemma crawl_loop_cursor E key fuel n fetcher num page st p st' :
  crawl_loop E key fuel n fetcher num page st = (Returns (Some p), st') →
  page ≤ p ≤ page + Z.max 0 (MAX_REQUESTS_PER_IP - num).
Proof.
  revert num page st. induction n as [|n IH]; intros num page st H.
  - cbn [crawl_loop] in H. destruct (num <? MAX_REQUESTS_PER_IP); [discriminate H|].
    injection H as <- _. lia.
  - cbn [crawl_loop] in H. destruct (num <? MAX_REQUESTS_PER_IP) eqn:Hb;
      [|injection H as <- _; lia].
    apply Z.ltb_lt in Hb. rewrite bind_unfold in H.
    destruct (Fetcher_get E fetcher (listing_url page) st) as [[[res|]| e |] st1];
      try discriminate H; [|injection H as <- _; lia].
    cbv zeta in H. rewrite bind_unfold in H.
    destruct ((if page_has_recaptcha (text res)
               then pass_recaptcha E key fuel fetcher (listing_url page)
                      (text res) (num + 1)
               else mret (Some (res, num + 1))) st1)
      as [[[[res' nr]|]| e |] st2] eqn:Hchk;
      try discriminate H; [|injection H as <- _; lia].
    assert (num + 1 ≤ nr) as Hnr.
    { destruct (page_has_recaptcha (text res)).
      - apply pass_recaptcha_count in Hchk. lia.
      - injection Hchk as _ <- _. lia. }
    destruct (Soup.find _ _ _) as [table|]; [|injection H as <- _; lia].
    rewrite bind_unfold in H.
    destruct (collect_domains table st2) as [[[]| e |] st3]; try discriminate H.
    rewrite bind_unfold in H.
    destruct (sleep 5 st3) as [[[]| e |] st4]; try discriminate H.
    rewrite bind_unfold in H.
    destruct (has_next_page (html_parser E (text res')) st4) as [[[[|]|]| e |] st5];
      try discriminate H.
    apply IH in H. lia.
Qed.

(** X8. The cursor never moves back and never runs ahead of the budget: a
    cursor returned by [do_some_work_until_finished_or_proxy_dead] is at
    least the page it was called with and at most [MAX_REQUESTS_PER_IP]
    pages further. *)
Theorem X8_returned_cursor_within_budget E key fuel proxy page st p st' :
  do_some_work_until_finished_or_proxy_dead E key fuel proxy page st
  = (Returns (Some p), st') →
  page ≤ p ≤ page + MAX_REQUESTS_PER_IP.
Proof.
  unfold do_some_work_until_finished_or_proxy_dead. intros H.
  rewrite bind_unfold in H.
  destruct (proxy_is_working E proxy st) as [[[|]| e |] st1]; try discriminate H;
    cbn [negb] in H; [|injection H as <- _; unfold MAX_REQUESTS_PER_IP; lia].
  rewrite bind_unfold, Fetcher__init__fresh in H.
  apply crawl_loop_cursor in H. unfold MAX_REQUESTS_PER_IP in *. lia.
Qed.

Lemma X8_witness :
  1 ≤ 21 ≤ 1 + MAX_REQUESTS_PER_IP
  ∧ (do_some_work_until_finished_or_proxy_dead Site.endless "secret123" 5
       Site.PROXY 1 initial_state).1 = Returns (Some 21).
Proof.
  split; [|vm_compute; reflexivity].
  apply (X8_returned_cursor_within_budget Site.endless "secret123" 5 Site.PROXY 1
           initial_state 21
           (do_some_work_until_finished_or_proxy_dead Site.endless "secret123" 5
              Site.PROXY 1 initial_state).2).
  vm_compute. reflexivity.
Defined.

(** *** A run with the network down *)

Section NetworkDown.
Variables (E : Env) (key : string) (fuel : nat).
Hypothesis down : ∀ n r, ∃ e, network E n r = inl e.

Lemma proxy_is_working_down p st :
  ∃ st', proxy_is_working E p st = (Returns false, st')
    ∧ bad_proxies st' = bad_proxies st ++ [p]
    ∧ good_proxies st' = good_proxies st
    ∧ results_file st' = results_file st
    ∧ domains st' = domains st
    ∧ length (requests_of (log st')) = S (length (requests_of (log st))).
Proof using down.
  unfold proxy_is_working. rewrite bind_unfold, Fetcher__init__fresh.
  set (f := mkFetcher _ _ _). set (st0 := set_sessions _ _).
  rewrite bind_unfold. unfold Fetcher_get.
  rewrite (Fetcher__request_spec E f IP_API_URL "GET" NoBody ∅ st0 eq_refl). cbv zeta.
  destruct (down (length (requests_of (log st0)))
              (request_sent f IP_API_URL "GET" NoBody ∅ st0)) as [e ->].
  eexists. split; [reflexivity|]. cbn.
  rewrite requests_of_snoc, length_app. cbn. repeat split; try done. lia.
Qed.

Lemma main_loop_down n proxies page st :
  page ≠ 0 → (length proxies < n)%nat →
  ∃ st', main_loop E key fuel n proxies page st = (Returns (), st')
    ∧ bad_proxies st' ≡ₚ bad_proxies st ++ proxies
    ∧ good_proxies st' = good_proxies st
    ∧ results_file st' = results_file st
    ∧ domains st' = domains st
    ∧ length (requests_of (log st'))
      = (length (requests_of (log st)) + length proxies)%nat.
Proof using down.
  intros Hpage. revert proxies st.
  induction n as [|n IH]; intros proxies st Hn; [lia|].
  cbn [main_loop]. destruct proxies as [|p0 ps].
  { exists st. rewrite bind_unfold, pick_proxy_next_nil. cbn. rewrite app_nil_r.
    repeat split; try done; lia. }
  destruct (pick_proxy_next_cons E p0 ps st) as (i & p & Hp & Hpick).
  rewrite bind_unfold, Hpick.
  set (st1 := set_log _ st).
  unfold do_some_work_until_finished_or_proxy_dead.
  destruct (proxy_is_working_down p st1) as (st2 & Hw & Hb & Hg & Hf & Hd & Hr).
  rewrite !bind_unfold, Hw. cbn [negb mret M_ret ret page_falsy].
  destruct (page =? 0) eqn:Hz; [lia|].
  rewrite bind_unfold. cbn [sleep emit modify].
  destruct (IH (delete i (p0 :: ps)) (set_log (log st2 ++ [EvSleep 3]) st2))
    as (st' & Hrun & Hb' & Hg' & Hf' & Hd' & Hr').
  { rewrite length_delete by by eexists. cbn in *. lia. }
  exists st'. split; [exact Hrun|].
  split; [|split; [|split; [|split]]].
  - rewrite Hb'. cbn [bad_proxies set_log]. rewrite Hb. subst st1. cbn [bad_proxies set_log].
    rewrite <- app_assoc. apply Permutation_app_head. cbn [app].
    symmetry. by apply delete_Permutation.
  - rewrite Hg'. cbn. by rewrite Hg.
  - rewrite Hf'. cbn. by rewrite Hf.
  - rewrite Hd'. cbn. by rewrite Hd.
  - rewrite Hr'. cbn [log set_log]. unfold requests_of at 1. rewrite omap_app. cbn [omap].
    rewrite app_nil_r. fold (requests_of (log st2)). rewrite Hr.
    subst st1. cbn [log set_log]. unfold requests_of at 1. rewrite omap_app. cbn [omap].
    rewrite app_nil_r. fold (requests_of (log st)).
    rewrite length_delete by by eexists. apply lookup_lt_Some in Hp. cbn in *. lia.
Qed.

End NetworkDown.

(** X15. With the key set and the proxies file readable, a run during which
    every request fails ends normally: it has sent exactly one request per
    line of the proxies file, every proxy of the file (its line without the
    newline) is in [bad_proxies], none is in [good_proxies], and neither the
    results file nor [domains] has changed. *)
Theorem X15_run_with_network_down E fuel key lines st :
  environ E !! "ANTI_CAPTCHA_KEY" = Some key →
  proxies_file E = Some lines →
  (∀ n r, ∃ e, network E n r = inl e) →
  ∃ st', script E fuel st = (Returns (), st')
    ∧ bad_proxies st' ≡ₚ bad_proxies st ++ (Py.strip_newline <$> lines)
    ∧ good_proxies st' = good_proxies st
    ∧ results_file st' = results_file st
    ∧ domains st' = domains st
    ∧ length (requests_of (log st'))
      = (length (requests_of (log st)) + length lines)%nat.
Proof.
  intros Hkey Hfile Hdown. unfold script, main, read_proxies_from_file.
  rewrite Hkey, bind_unfold. rewrite bind_unfold. cbn [emit modify]. rewrite Hfile.
  cbn [mret M_ret ret].
  destruct (main_loop_down E key fuel Hdown (S (length (Py.strip_newline <$> lines)))
              (Py.strip_newline <$> lines) START_PAGE
              (set_log (log st ++ [EvReadFile PROXIES_FILE]) st))
    as (st' & Hrun & Hb & Hg & Hf & Hd & Hr); [done|lia|].
  exists st'. split; [exact Hrun|]. repeat split; try done.
  rewrite Hr. cbn [log set_log]. unfold requests_of at 1. rewrite omap_app. cbn [omap].
  rewrite app_nil_r, length_fmap. reflexivity.
Qed.

Lemma X15_witness :
  let E := Site.env (λ _ _, inl (RequestException "ConnectionError"))
             ["1.2.3.4:8080
"; "5.6.7.8:3128"] in
  ∃ st', script E 5 initial_state = (Returns (), st')
    ∧ bad_proxies st' ≡ₚ ["1.2.3.4:8080"; "5.6.7.8:3128"]
    ∧ length (requests_of (log st')) = 2%nat.
Proof.
  intros E.
  destruct (X15_run_with_network_down E 5 "secret123"
              ["1.2.3.4:8080
"; "5.6.7.8:3128"] initial_state)
    as (st' & Hrun & Hb & _ & _ & _ & Hr);
    [reflexivity|reflexivity|intros n r; by eexists|].
  exists st'. split; [exact Hrun|]. split; [exact Hb|exact Hr].
Defined.

(** *** Polling the oracle *)

(** X16. A poll answered with a status other than 200, or with a JSON
    object that has no [solution] key, or whose solution object has no
    [gRecaptchaResponse] key, returns [None]: the missing key is caught, not
    raised. *)
Theorem X16_poll_without_solution_returns_none E key task_id st res :
  (∀ r, network E (length (requests_of (log st))) r = inr res) →
  status_code res ≠ 200
  ∨ (∃ fields, json_loads E (text res) = Some (JObj fields)
       ∧ (assoc "solution" fields = None
          ∨ ∃ sol, assoc "solution" fields = Some (JObj sol)
                   ∧ assoc "gRecaptchaResponse" sol = None)) →
  (_get_anti_captcha_solution E key task_id st).1 = Returns JNull.
Proof.
  intros Hnet Hres. unfold _get_anti_captcha_solution, requests_post_json.
  rewrite bind_unfold. unfold http_call. rewrite Hnet.
  destruct Hres as [Hs|(fields & Hj & Hsol)].
  { destruct (status_code res =? 200) eqn:Hb; [lia|]. reflexivity. }
  destruct (status_code res =? 200); [|reflexivity]. cbn [negb].
  unfold try_except, res_json. rewrite bind_unfold, Hj. cbn [mret M_ret ret].
  rewrite bind_unfold. cbn [subscript].
  destruct Hsol as [Hnone|(sol & Hsome & Hnone)].
  - rewrite Hnone. reflexivity.
  - rewrite Hsome. cbn [mret M_ret ret subscript]. rewrite Hnone. reflexivity.
Qed.

Lemma X16_witness :
  let E := Site.env (λ _ _, Site.ok Site.PROCESSING) [] in
  (_get_anti_captcha_solution E "secret123" (JInt 7) initial_state).1 = Returns JNull.
Proof.
  intros E.
  apply (X16_poll_without_solution_returns_none E "secret123" (JInt 7)
           initial_state (mkResponse 200 Site.PROCESSING ∅ EmptyString)).
  - intros r. reflexivity.
  - right. eexists. split; [reflexivity|]. left. reflexivity.
Defined.

(** X17. The first poll that brings a truthy solution ends the polling: from
    no solution yet, the loop waits 6 seconds, sends one request and returns
    that solution, however many iterations are left. *)
Theorem X17_polling_stops_at_first_solution
    E key n task_id st res fields sol v :
  (∀ r, network E (length (requests_of (log st))) r = inr res) →
  status_code res = 200 →
  json_loads E (text res) = Some (JObj fields) →
  assoc "solution" fields = Some (JObj sol) →
  assoc "gRecaptchaResponse" sol = Some v →
  truthy v = true →
  ∃ req, poll_solution E key (S n) task_id JNull 0 st
         = (Returns v, set_log (log st ++ [EvSleep 6; EvHttp req]) st)
    ∧ req_url req = "https://api.anti-captcha.com/getTaskResult"
    ∧ req_proxies req = None.
Proof.
  intros Hnet Hs Hj Hsol Hv Ht.
  exists (mkRequest "post" "https://api.anti-captcha.com/getTaskResult"
            (JsonBody (JObj [("clientKey", JStr key); ("taskId", task_id)]))
            ∅ ∅ None None).
  split; [|split; reflexivity].
  cbn [poll_solution truthy negb andb Z.ltb Z.compare].
  rewrite bind_unfold. cbn [sleep emit modify].
  rewrite bind_unfold.
  unfold _get_anti_captcha_solution, requests_post_json.
  rewrite bind_unfold. unfold http_call.
  assert (length (requests_of (log (set_log (log st ++ [EvSleep 6]) st)))
          = length (requests_of (log st))) as ->.
  { cbn [log set_log]. unfold requests_of. rewrite omap_app. cbn. by rewrite app_nil_r. }
  rewrite Hnet, Hs. cbn [Z.eqb Pos.eqb negb].
  unfold try_except, res_json. rewrite bind_unfold, Hj. cbn [mret M_ret ret].
  rewrite bind_unfold. cbn [subscript]. rewrite Hsol. cbn [mret M_ret ret subscript].
  rewrite Hv. cbn [mret M_ret ret].
  destruct n; cbn [poll_solution]; rewrite Ht; cbn [negb andb];
    cbn [set_log log]; rewrite <- app_assoc; reflexivity.
Qed.

Lemma X17_witness :
  let E := Site.env (λ _ _, Site.ok Site.READY) [] in
  (poll_solution E "secret123" 3 (JInt 7) JNull 0 initial_state).1
  = Returns (JStr "03AG")
  ∧ length (log (poll_solution E "secret123" 3 (JInt 7) JNull 0 initial_state).2)
    = 2%nat.
Proof.
  intros E.
  destruct (X17_polling_stops_at_first_solution E "secret123" 2 (JInt 7) initial_state
              (mkResponse 200 Site.READY ∅ EmptyString)
              [("errorId", JInt 0); ("status", JStr "ready");
               ("solution", JObj [("gRecaptchaResponse", JStr "03AG")])]
              [("gRecaptchaResponse", JStr "03AG")] (JStr "03AG"))
    as (req & -> & _); try reflexivity.
  split; reflexivity.
Defined.

(** *** Recording before advancing *)

(** X18. The cursor is advanced only after the page's records are stored:
    when a fetched page shows no challenge, has the results table and
    [has_next_page] says there are more pages, the loop goes on with the
    next page and one more request counted, from a state in which the
    page's records have been added to [domains] and appended to the results
    file and the 5 second pause has been taken, without any further
    request. *)
Theorem X18_cursor_advances_after_page_is_recorded
    E key fuel n fetcher num page st res st1 table :
  num < MAX_REQUESTS_PER_IP →
  Fetcher_get E fetcher (listing_url page) st = (Returns (Some res), st1) →
  page_has_recaptcha (text res) = false →
  Soup.find (Some "table") [("id", "sites_tbl")] (html_parser E (text res))
  = Some table →
  (∀ st', has_next_page (html_parser E (text res)) st' = (Returns (Some true), st')) →
  ∃ st2,
    crawl_loop E key fuel (S n) fetcher num page st
    = crawl_loop E key fuel n fetcher (num + 1) (page + 1) st2
    ∧ domains st2 = domains st1 ∪ page_domains table
    ∧ results_file st2 = results_file st1 ++ elements (page_domains table)
    ∧ (∃ l, log st2 = l ++ [EvSleep 5])
    ∧ requests_of (log st2) = requests_of (log st1).
Proof.
  intros Hlt Hget Hcap Htab Hnext. cbn [crawl_loop].
  destruct (num <? MAX_REQUESTS_PER_IP) eqn:Hb; [|lia].
  rewrite (bind_returns _ _ _ _ _ Hget). cbv beta iota. rewrite Hcap.
  rewrite bind_unfold. cbn [mret M_ret ret]. rewrite Htab.
  destruct (collect_domains_spec table st1) as (st2 & Hc & Hd & Hf & _ & _ & Hreq).
  rewrite (bind_returns _ _ _ _ _ Hc).
  rewrite bind_unfold. cbn [sleep emit modify].
  rewrite bind_unfold, Hnext.
  eexists. split; [reflexivity|]. cbn [domains results_file log set_log].
  split; [done|]. split; [done|]. split; [by eexists|].
  unfold requests_of in *. rewrite omap_app, Hreq. cbn. by rewrite app_nil_r.
Qed.

Lemma X18_witness :
  let f := mkFetcher (Some Site.PROXY) 0 TIMEOUT in
  let st := set_heap [∅] initial_state in
  ∃ st2, crawl_loop Site.endless "secret123" 5 3 f 0 1 st
         = crawl_loop Site.endless "secret123" 5 2 f 1 2 st2
    ∧ results_file st2 = ["a.example.com"; "b.example.com"].
Proof.
  intros f st.
  destruct (X18_cursor_advances_after_page_is_recorded Site.endless "secret123" 5 2 f
              0 1 st (mkResponse 200 Site.MORE ∅ EmptyString)
              (Fetcher_get Site.endless f (listing_url 1) st).2
              (Site.table ["a.example.com"; " b.example.com "],
               [Site.counter "1,650" "217,793"]))
    as (st2 & Hrun & _ & Hf & _);
    [unfold MAX_REQUESTS_PER_IP; lia|vm_compute; reflexivity..|intros st'; reflexivity|].
  exists st2. split; [exact Hrun|]. rewrite Hf. vm_compute. reflexivity.
Defined.

(** X19. [write_domains_to_file] appends exactly the given lines, in order,
    after what the file held, and leaves [domains] alone; it creates the
    [results] directory only when it does not exist yet, and afterwards the
    directory exists, so a later write creates nothing. *)
Theorem X19_write_appends_and_creates_directory_once lines st :
  ∃ st', write_domains_to_file lines st = (Returns (), st')
    ∧ results_file st' = results_file st ++ lines
    ∧ domains st' = domains st
    ∧ "results" ∈ dirs st'
    ∧ log st' = (if bool_decide ("results" ∈ dirs st) then log st
                 else log st ++ [EvMakeDirs "results"])
    ∧ ∀ more, log (write_domains_to_file more st').2 = log st'.
Proof.
  assert (∀ l s, "results" ∈ dirs s →
            write_domains_to_file l s
            = (Returns (), set_results_file (results_file s ++ l) s)) as Hknown.
  { intros l s Hin. unfold write_domains_to_file, ensure_directories.
    change (Py.contains "/" RESULTS_FILE) with true. cbv iota.
    change (Py.dirname RESULTS_FILE) with "results". cbv zeta.
    rewrite !bind_unfold. cbn [get_state].
    rewrite bool_decide_eq_true_2 by done. reflexivity. }
  destruct (decide ("results" ∈ dirs st)) as [Hin|Hout].
  - exists (set_results_file (results_file st ++ lines) st).
    split; [by apply Hknown|]. split; [done|]. split; [done|]. split; [done|].
    split; [by rewrite bool_decide_eq_true_2|].
    intros more. by rewrite Hknown.
  - exists (set_results_file (results_file st ++ lines)
              (set_dirs ({["results"]} ∪ dirs st)
                 (set_log (log st ++ [EvMakeDirs "results"]) st))).
    split.
    { unfold write_domains_to_file, ensure_directories.
      change (Py.contains "/" RESULTS_FILE) with true. cbv iota.
      change (Py.dirname RESULTS_FILE) with "results". cbv zeta.
      rewrite !bind_unfold. cbn [get_state].
      rewrite bool_decide_eq_false_2 by done. reflexivity. }
    split; [done|]. split; [done|]. split; [cbn; set_solver|].
    split; [by rewrite bool_decide_eq_false_2|].
    intros more. rewrite Hknown by (cbn; set_solver). reflexivity.
Qed.

(** *** Reading the proxies file *)

Lemma rev_app_snoc (s t : string) c :
  String.rev_app (s +:+ String c EmptyString) t = String c (String.rev_app s t).
Proof.
  revert t. induction s as [|a s IH]; intros t; [reflexivity|].
  rewrite string_app_cons. cbn [String.rev_app]. apply IH.
Qed.

Lemma rev_app_rev (s t : string) :
  String.rev_app (String.rev_app s t) EmptyString
  = String.rev_app t s.
Proof.
  revert t. induction s as [|a s IH]; intros t; [reflexivity|].
  cbn [String.rev_app]. rewrite IH. reflexivity.
Qed.

Lemma rev_involutive (s : string) : String.rev (String.rev s) = s.
Proof. unfold String.rev. by rewrite rev_app_rev. Qed.

Lemma free_of_rev_app c (s t : string) :
  free_of c (String.rev_app s t) = (free_of c s && free_of c t)%bool.
Proof.
  revert t. induction s as [|a s IH]; intros t; [reflexivity|].
  cbn [String.rev_app free_of]. rewrite IH. cbn [free_of].
  destruct (negb (Ascii.eqb a c)), (free_of c s); reflexivity.
Qed.

Lemma lstrip_free c (s : string) :
  free_of c s = true → Py.lstrip_by (λ a, Ascii.eqb a c) s = s.
Proof.
  destruct s as [|a s]; [done|]. cbn [free_of Py.lstrip_by].
  destruct (Ascii.eqb a c); [discriminate|done].
Qed.

Lemma strip_free c (s : string) :
  free_of c s = true → Py.strip_by (λ a, Ascii.eqb a c) s = s.
Proof.
  intros H. unfold Py.strip_by. rewrite (lstrip_free c s H).
  rewrite lstrip_free; [apply rev_involutive|].
  unfold String.rev. rewrite free_of_rev_app, H. reflexivity.
Qed.

Lemma strip_free_snoc c (s : string) :
  free_of c s = true →
  Py.strip_by (λ a, Ascii.eqb a c) (s +:+ String c EmptyString) = s.
Proof.
  intros H. unfold Py.strip_by.
  assert (Py.lstrip_by (λ a, Ascii.eqb a c) (s +:+ String c EmptyString)
          = match s with
            | EmptyString => EmptyString
            | _ => s +:+ String c EmptyString
            end) as ->.
  { destruct s as [|a s].
    - change (EmptyString +:+ String c EmptyString) with (String c EmptyString).
      cbn [Py.lstrip_by]. by rewrite Ascii.eqb_refl.
    - rewrite string_app_cons. cbn [free_of Py.lstrip_by] in *.
      destruct (Ascii.eqb a c); [discriminate|done]. }
  destruct s as [|a s]; [reflexivity|].
  unfold String.rev at 2. rewrite rev_app_snoc. cbn [Py.lstrip_by].
  rewrite Ascii.eqb_refl.
  rewrite lstrip_free; [exact (rev_involutive (String a s))|].
  by rewrite free_of_rev_app, H.
Qed.

(** X20. Reading back a proxies file written one proxy per line gives the
    proxies: when every line of the file is a proxy string, free of newline
    characters, followed or not by a newline, [read_proxies_from_file]
    returns exactly those proxy strings, in the order of the file. *)
Theorem X20_proxies_file_is_read_line_by_line E (lines proxies : list string) st :
  proxies_file E = Some lines →
  Forall2 (λ line p, free_of "010" p = true
                     ∧ (line = p ∨ line = p +:+ String "010" EmptyString))
    lines proxies →
  read_proxies_from_file E st
  = (Returns proxies, set_log (log st ++ [EvReadFile PROXIES_FILE]) st).
Proof.
  intros Hfile Hlines. unfold read_proxies_from_file.
  rewrite bind_unfold. cbn [emit modify]. rewrite Hfile. cbn [mret M_ret ret].
  assert (Py.strip_newline <$> lines = proxies) as ->; [|reflexivity].
  clear Hfile. induction Hlines as [|line p lines proxies [Hfree Hline] _ IH];
    [reflexivity|].
  rewrite fmap_cons, IH. f_equal. unfold Py.strip_newline.
  destruct Hline as [-> | ->]; [by apply strip_free|by apply strip_free_snoc].
Qed.

Lemma X20_witness :
  let E := Site.env (λ _ _, Site.ok Site.MORE) ["1.2.3.4:8080
"; "5.6.7.8:3128"] in
  (read_proxies_from_file E initial_state).1
  = Returns ["1.2.3.4:8080"; "5.6.7.8:3128"].
Proof.
  intros E.
  rewrite (X20_proxies_file_is_read_line_by_line E
             ["1.2.3.4:8080
"; "5.6.7.8:3128"] ["1.2.3.4:8080"; "5.6.7.8:3128"] initial_state);
    [reflexivity|reflexivity|].
  constructor; [split; [reflexivity|right; reflexivity]|].
  constructor; [split; [reflexivity|left; reflexivity]|].
  constructor.
Defined.

(** *** Missing table, missing markers *)




